(** * remix.infonomic.io: request handlers, document shell and utilities

    A shallow embedding of
      - app/utils.ts                     ([safeRedirect], [isBusy]),
      - app/root.tsx                     ([loader], [Document], [ErrorDocument],
                                          [App], [ErrorBoundary], [CatchBoundary]),
      - app/routes/_app+/notes.new.tsx   ([action]),
      - app/routes/theme.tsx             ([loader]),
    followed by the properties the specification states about them.

    Handlers and components run in a small state-and-exception monad over a
    [World] (process environment, notes store, console).  JSX is embedded as
    an element tree in which the components imported from elsewhere stay
    unexpanded nodes. *)

From Stdlib Require Import ZArith String Ascii List Lia.
From stdpp Require Import gmap strings list pretty.

Set Warnings "-register-all".

Local Open Scope Z_scope.

(** ** JavaScript values *)

Module Js.

(** The values that reach the modelled functions.  [JsNumber] carries the
    integral numbers; [JsObject] stands for any object (a [File], a parsed
    JSON object, a function) and carries what [String(o)] yields. *)
Inductive JsValue : Type :=
| JsUndefined
| JsNull
| JsBool (b : bool)
| JsNumber (n : Z)
| JsString (s : string)
| JsObject (repr : string).

(** ToBoolean. *)
Definition truthy (v : JsValue) : bool :=
  match v with
  | JsUndefined | JsNull => false
  | JsBool b => b
  | JsNumber n => negb (n =? 0)
  | JsString s => negb (String.eqb s "")
  | JsObject _ => true
  end.

(** [typeof v === 'string'] *)
Definition is_string (v : JsValue) : bool :=
  match v with JsString _ => true | _ => false end.

(** ToString, as [String(v)] and template literals apply it. *)
Definition to_string (v : JsValue) : string :=
  match v with
  | JsUndefined => "undefined"
  | JsNull => "null"
  | JsBool true => "true"
  | JsBool false => "false"
  | JsNumber n => pretty n
  | JsString s => s
  | JsObject repr => repr
  end.

(** [a || b] *)
Definition or (a b : JsValue) : JsValue := if truthy a then a else b.

(** [s.startsWith(p)] *)
Definition startsWith (s p : string) : bool := String.prefix p s.

(** [s.includes(p)] *)
Fixpoint includes (s p : string) : bool :=
  startsWith s p ||
  match s with
  | EmptyString => false
  | String _ rest => includes rest p
  end.

(** [new Error(message)]: the message is absent (and reads as the
    prototype's empty string) only for [undefined]. *)
Record Error : Type := mkError { message : string }.

Definition new_Error (v : JsValue) : Error :=
  match v with
  | JsUndefined => mkError ""
  | _ => mkError (to_string v)
  end.

End Js.

(** ** app/utils.ts *)

Module Utils.
Import Js.

Definition DEFAULT_REDIRECT : string := "/".

(** A parameter with a default value takes it when the argument is left
    out. *)
Definition default_arg (given : option string) : string :=
  match given with
  | Some d => d
  | None => DEFAULT_REDIRECT
  end.

Definition safeRedirect (to : JsValue) (defaultRedirect : option string) : string :=
  let defaultRedirect := default_arg defaultRedirect in
  if negb (truthy to) || negb (is_string to) then defaultRedirect
  else
    match to with
    | JsString s =>
        if negb (startsWith s "/") || startsWith s "//" then defaultRedirect
        else s
    | _ => defaultRedirect
    end.

(** [Transition] of @remix-run/react: its [state] and its [type]. *)
Inductive TransitionState : Type := Idle | Submitting | Loading.

Inductive TransitionType : Type :=
| TyIdle
| ActionSubmission
| LoaderSubmission
| LoaderSubmissionRedirect
| ActionReload
| ActionRedirect
| FetchActionRedirect
| NormalRedirect
| NormalLoad.

Definition type_name (ty : TransitionType) : string :=
  match ty with
  | TyIdle => "idle"
  | ActionSubmission => "actionSubmission"
  | LoaderSubmission => "loaderSubmission"
  | LoaderSubmissionRedirect => "loaderSubmissionRedirect"
  | ActionReload => "actionReload"
  | ActionRedirect => "actionRedirect"
  | FetchActionRedirect => "fetchActionRedirect"
  | NormalRedirect => "normalRedirect"
  | NormalLoad => "normalLoad"
  end.

Record Transition : Type := mkTransition {
  state : TransitionState;
  type : TransitionType
}.

(** The object literal [{ actionRedirect: true, actionReload: true }]. *)
Definition loading : gmap string bool :=
  <["actionRedirect" := true]> (<["actionReload" := true]> ∅).

(** [obj[key]]: a missing property reads as [undefined].  None of the
    names of [TransitionType] is a property of [Object.prototype]. *)
Definition property (obj : gmap string bool) (key : string) : JsValue :=
  match obj !! key with
  | Some b => JsBool b
  | None => JsUndefined
  end.

Definition isBusy (transition : Transition) : JsValue :=
  match state transition with
  | Submitting => JsBool true
  | Loading => property loading (type_name (type transition))
  | Idle => JsBool false
  end.

End Utils.

(** ** Data model *)

Module Model.
Import Js.

(** [Theme] of ui/theme/theme-provider, with its string values. *)
Inductive Theme : Type := DARK | LIGHT.

Definition theme_value (t : Theme) : string :=
  match t with
  | DARK => "dark"
  | LIGHT => "light"
  end.

Record User : Type := mkUser {
  user_id : string;
  email : string
}.

Record Note : Type := mkNote {
  note_id : string;
  title : string;
  body : string;
  userId : string
}.

(** The argument of [createNote]. *)
Record NoteInput : Type := mkNoteInput {
  in_title : string;
  in_body : string;
  in_userId : string
}.

(** An object literal whose properties hold a string or [undefined], in
    the order they were written. *)
Definition EnvObject : Type := list (string * option string).

Record LoaderData : Type := mkLoaderData {
  theme : option Theme;
  user : option User;
  ENV : EnvObject
}.

(** A session is a key-value store; [session.flash(name, value)] files the
    value under a key derived from the name. *)
Abbreviation Session := (gmap string string).

Definition flash_key (name : string) : string := "__flash_" +:+ name +:+ "__".

Definition flash (name value : string) (session : Session) : Session :=
  <[flash_key name := value]> session.

(** The entries of a submitted form. *)
Definition FormData : Type := list (string * string).

(** What [error.format()] yields for a failed parse: the messages of each
    field. *)
Abbreviation FieldErrors := (gmap string (list string)).

Inductive Body : Type :=
| BodyNull
| BodyErrors (errors : FieldErrors)
| BodyLoaderData (data : LoaderData).

Record Response : Type := mkResponse {
  status : Z;
  headers : list (string * string);
  body_of : Body
}.

Record Request : Type := mkRequest {
  url : string;
  session_cookie : Session;
  theme_cookie : option Theme;
  form : FormData
}.

(** What a handler or a component can throw. *)
Inductive Thrown : Type :=
| ThrownResponse (r : Response)
| ThrownError (e : Error).

Record World : Type := mkWorld {
  process_env : gmap string string;
  notes : list Note;
  console : list Error
}.

End Model.

(** ** Effects: state passing over the world, with exceptions *)

Module Eff.
Import Model.

Inductive Outcome (A : Type) : Type :=
| Returned (a : A)
| Threw (t : Thrown).
Arguments Returned {A} a.
Arguments Threw {A} t.

Definition M (A : Type) : Type := World -> Outcome A * World.

Definition ret {A} (a : A) : M A := fun w => (Returned a, w).

Definition bind {A B} (c : M A) (k : A -> M B) : M B :=
  fun w =>
    match c w with
    | (Returned a, w') => k a w'
    | (Threw t, w') => (Threw t, w')
    end.

Definition throw {A} (t : Thrown) : M A := fun w => (Threw t, w).

(** [try { c } catch (e) { h(e) }] *)
Definition catch {A} (c : M A) (h : Thrown -> M A) : M A :=
  fun w =>
    match c w with
    | (Returned a, w') => (Returned a, w')
    | (Threw t, w') => h t w'
    end.

Definition get_world : M World := fun w => (Returned w, w).

Definition put_world (w' : World) : M unit := fun _ => (Returned tt, w').

(** [await Promise.all([a, b, c])], the promises started in this order. *)
Definition promise_all3 {A B C} (a : M A) (b : M B) (c : M C) : M (A * B * C) :=
  bind a (fun x => bind b (fun y => bind c (fun z => ret (x, y, z)))).

End Eff.

Declare Scope eff_scope.
Delimit Scope eff_scope with eff.
Notation "x <- c ;; k" := (Eff.bind c (fun x => k))
  (at level 100, c at next level, right associativity) : eff_scope.
Notation "c ;; k" := (Eff.bind c (fun _ => k))
  (at level 100, right associativity) : eff_scope.

(** ** @remix-run/node: responses *)

Module Http.
Import Model.

(** [headers.set(name, value)] *)
Definition headers_set (name value : string) (hs : list (string * string))
  : list (string * string) :=
  filter (fun h => negb (String.eqb (fst h) name)) hs ++ [(name, value)].

Definition headers_get (name : string) (hs : list (string * string)) : option string :=
  snd <$> List.find (fun h => String.eqb (fst h) name) hs.

Definition headers_has (name : string) (hs : list (string * string)) : bool :=
  existsb (fun h => String.eqb (fst h) name) hs.

(** [redirect(url, { headers })]: status 302 and a [Location] header. *)
Definition redirect (to : string) (init_headers : list (string * string)) : Response :=
  mkResponse 302 (headers_set "Location" to init_headers) BodyNull.

(** [json(data, { status })]; the status defaults to 200. *)
Definition json (data : Body) (init_status : option Z) : Response :=
  mkResponse
    (match init_status with Some s => s | None => 200 end)
    [("Content-Type", "application/json; charset=utf-8")]
    data.

Definition is_redirect (r : Response) : bool :=
  (300 <=? status r) && (status r <? 400) && headers_has "Location" (headers r).

End Http.

(** ** JSX element trees *)

Module Jsx.

(** [El] is a host element, [Txt] a text child, [Comp] an element of a
    component that is imported from elsewhere and left unexpanded. *)
Inductive Element : Type :=
| El (tag : string) (props : list (string * string)) (children : list Element)
| Txt (s : string)
| Comp (name : string) (props : list (string * string)) (children : list Element).

(** The elements of a tree in document order, the root first. *)
Fixpoint nodes (e : Element) : list Element :=
  e :: match e with
       | El _ _ cs => flat_map nodes cs
       | Txt _ => []
       | Comp _ _ cs => flat_map nodes cs
       end.

Definition prop (name : string) (e : Element) : option string :=
  match e with
  | El _ ps _ | Comp _ ps _ => snd <$> List.find (fun p => String.eqb (fst p) name) ps
  | Txt _ => None
  end.

Definition is_el (tag : string) (e : Element) : bool :=
  match e with
  | El t _ _ => String.eqb t tag
  | _ => false
  end.

Definition is_comp (name : string) (e : Element) : bool :=
  match e with
  | Comp n _ _ => String.eqb n name
  | _ => false
  end.

(** The text children of a tree, in document order. *)
Definition texts (e : Element) : list string :=
  flat_map (fun n => match n with Txt s => [s] | _ => [] end) (nodes e).

(** What runs in the browser: an inline script, the framework's script
    tags and the live-reload client. *)
Definition is_client_script (e : Element) : bool :=
  is_el "script" e || is_comp "Scripts" e || is_comp "LiveReload" e.

(** [{cond ? <x/> : null}]: a [null] child renders nothing. *)
Definition child_if (cond : bool) (e : Element) : list Element :=
  if cond then [e] else [].

End Jsx.

(** ** JSON.stringify *)

Module Json.

Definition dquote : ascii := "034"%char.
Definition backslash : ascii := "092"%char.

Definition hex_digit (n : N) : ascii :=
  ascii_of_N (if (n <? 10)%N then 48 + n else 87 + n)%N.

(** QuoteJSONString, one code unit at a time. *)
Definition escape (c : ascii) : string :=
  let n := N_of_ascii c in
  if (n =? 8)%N then String backslash "b"
  else if (n =? 9)%N then String backslash "t"
  else if (n =? 10)%N then String backslash "n"
  else if (n =? 12)%N then String backslash "f"
  else if (n =? 13)%N then String backslash "r"
  else if (n =? 34)%N then String backslash (String dquote "")
  else if (n =? 92)%N then String backslash (String backslash "")
  else if (n <? 32)%N then
    String backslash ("u00" +:+ String (hex_digit (n / 16)) (String (hex_digit (n mod 16)) ""))
  else String c "".

Fixpoint escape_all (s : string) : string :=
  match s with
  | EmptyString => ""
  | String c rest => escape c +:+ escape_all rest
  end.

Definition quote (s : string) : string :=
  String dquote (escape_all s) +:+ String dquote "".

Fixpoint join (sep : string) (l : list string) : string :=
  match l with
  | [] => ""
  | [x] => x
  | x :: rest => x +:+ sep +:+ join sep rest
  end.

(** The properties that survive serialization: one whose value is
    [undefined] is left out. *)
Definition defined_props (o : Model.EnvObject) : list (string * string) :=
  omap (fun kv => match snd kv with Some v => Some (fst kv, v) | None => None end) o.

Definition stringify (o : Model.EnvObject) : string :=
  "{" +:+ join "," (map (fun kv => quote (fst kv) +:+ ":" +:+ quote (snd kv)) (defined_props o)) +:+ "}".

(** [JSON.parse(JSON.stringify(o))] *)
Definition roundtrip (o : Model.EnvObject) : Model.EnvObject :=
  map (fun kv => (fst kv, Some (snd kv))) (defined_props o).

End Json.

(** ** Schema validation (zod) *)

Module Zod.
Import Model.

(** The fields of a note as the schema yields them. *)
Record NoteFields : Type := mkNoteFields {
  f_title : string;
  f_body : string
}.

(** An issue names the field it is about and carries a message. *)
Record ZodIssue : Type := mkIssue {
  path : string;
  issue_message : string
}.

Definition ZodError : Type := list ZodIssue.

Inductive SafeParseResult : Type :=
| ParseSuccess (data : NoteFields)
| ParseFailure (error : ZodError).


(** [error.format()]: the messages of the issues, filed under their field,
    in the order of the issues. *)
Definition format (error : ZodError) : FieldErrors :=
  fold_left
    (fun acc i => <[path i := default [] (acc !! path i) ++ [issue_message i]]> acc)
    error ∅.

End Zod.

(** ** The collaborators outside the excerpt

    What the handlers import from modules that are not part of the source at
    hand and whose internals the specification leaves open. *)

Class Collaborators : Type := {
  (** [schema.safeParse] of ~/modules/notes *)
  safeParse : Model.FormData -> Zod.SafeParseResult;
  (** [commitSession] of ~/session.server: the signed cookie of a session *)
  commitSession : gmap string string -> string;
  (** where an anonymous visitor of a protected route is sent *)
  login_location : Model.Request -> string;
  (** the id the store gives the next note *)
  fresh_note_id : list Model.Note -> string;
  (** the user of a given id, if the store has one *)
  find_user : string -> option Model.User
}.

(** ** ~/session.server, ~/theme.server, ~/models/note.server,
       ~/ui/theme/theme-provider *)

Module Server.
Import Js Model Eff.
Local Open Scope eff_scope.

Section WithCollaborators.
Context `{Collaborators}.

(** The key under which the session keeps the user id. *)
Definition USER_SESSION_KEY : string := "userId".

(** Modelled from the spec: [getSession] of ~/session.server is not part
    of the source at hand; it reads the session the request's signed
    cookie carries. *)
Definition getSession (request : Request) : M Session :=
  ret (session_cookie request).

(** Modelled from the spec: [requireUserId] of ~/session.server is not
    part of the source at hand; the spec gives it as
    [requireUserId(request) -> string], which throws a redirect to the
    login page if the session has no user id. *)
Definition requireUserId (request : Request) : M string :=
  session <- getSession request ;;
  match session !! USER_SESSION_KEY with
  | Some userId => ret userId
  | None => throw (ThrownResponse (Http.redirect (login_location request) []))
  end.

(** Modelled from the spec: [getUser] of ~/session.server is not part of
    the source at hand; the spec gives it as
    [getUser(request) -> User|null], failing open to no user. *)
Definition getUser (request : Request) : M (option User) :=
  session <- getSession request ;;
  match session !! USER_SESSION_KEY with
  | Some userId => ret (find_user userId)
  | None => ret None
  end.

(** Modelled from the spec: [getThemeSession(request).getTheme()] of
    ~/theme.server is not part of the source at hand; it yields the
    theme the request's cookie carries, or [null]. *)
Definition getTheme (request : Request) : M (option Theme) :=
  ret (theme_cookie request).

(** Modelled from the spec: [createNote] of ~/models/note.server is not
    part of the source at hand; the spec gives it as
    [createNote({title, body, userId}) -> Note].  The note is added to
    the store. *)
Definition createNote (input : NoteInput) : M (option Note) :=
  w <- get_world ;;
  let note :=
    mkNote (fresh_note_id (notes w)) (in_title input) (in_body input) (in_userId input) in
  put_world (mkWorld (process_env w) (notes w ++ [note]) (console w)) ;;
  ret (Some note).

(** [console.error(error)] *)
Definition console_error (error : Error) : M unit :=
  w <- get_world ;;
  put_world (mkWorld (process_env w) (notes w) (console w ++ [error])).

(** [process.env.NAME] *)
Definition process_env_get (name : string) : M (option string) :=
  w <- get_world ;;
  ret (process_env w !! name).

End WithCollaborators.

(** Modelled from the spec: [ThemeProvider] and [useTheme] of
    ~/ui/theme/theme-provider are not part of the source at hand; the root
    class follows the resolved theme, which the server determines: the
    value [useTheme] reads below a provider is the theme the provider was
    given. *)
Record ThemeContext : Type := mkThemeContext { ctx_theme : option Theme }.

Definition ThemeProvider_context (specifiedTheme : option Theme) : ThemeContext :=
  mkThemeContext specifiedTheme.

(** [cx(theme)] of classnames, for one argument that is a string or
    [null]. *)
Definition cx (theme : option Theme) : string :=
  match theme with
  | Some t => theme_value t
  | None => ""
  end.

End Server.

(** ** app/root.tsx *)

Module Root.
Import Js Model Eff Jsx Server.
Local Open Scope eff_scope.

Definition meta_el (name content : string) : Element :=
  El "meta" [("name", name); ("content", content)] [].

Definition link_icon (sizes href : string) : Element :=
  El "link" [("rel", "icon"); ("type", "image/png"); ("sizes", sizes); ("href", href)] [].

Definition description : string :=
  "A Remix demo app with Radix UI, headless UI and Tailwind CSS.".

(** The icon and manifest links, the same in both documents. *)
Definition icon_links : list Element :=
  [ El "link" [("rel", "apple-touch-icon"); ("sizes", "180x180");
               ("href", "/apple-touch-icon.png?v=10")] [];
    link_icon "96x96" "/favicon-96x96.png?v=10";
    link_icon "48x48" "/favicon-48x48.png?v=10";
    link_icon "32x32" "/favicon-32x32.png?v=10";
    link_icon "16x16" "/favicon-16x16.png?v=10";
    El "link" [("rel", "icon"); ("href", "/favicon.ico?v=10")] [];
    El "link" [("rel", "manifest"); ("href", "/manifest.webmanifest?v=10");
               ("crossOrigin", "use-credentials")] [];
    El "link" [("rel", "mask-icon"); ("href", "/safari-pinned-tab.svg?v=10");
               ("color", "#501c76")] [];
    El "link" [("rel", "icon"); ("href", "/favicon.ico?v=10")] [] ].

(** [{title ? <title>{title}</title> : null}] *)
Definition title_el (title : option string) : list Element :=
  match title with
  | Some t => child_if (truthy (JsString t)) (El "title" [] [Txt t])
  | None => []
  end.

Definition bool_prop (b : bool) : string := if b then "true" else "false".

Section WithCollaborators.
Context `{Collaborators}.

Definition loader (request : Request) : M Response :=
  theme <- getTheme request ;;
  user <- getUser request ;;
  recaptcha_enabled <- process_env_get "RECAPTCHA_ENABLED" ;;
  recaptcha_site_key <- process_env_get "RECAPTCHA_SITE_KEY" ;;
  let data :=
    mkLoaderData theme user
      [ ("RECAPTCHA_ENABLED", recaptcha_enabled);
        ("RECAPTCHA_SITE_KEY", recaptcha_site_key) ] in
  ret (Http.json (BodyLoaderData data) None).

End WithCollaborators.

(** [useLoaderData()]: the loader's data as it arrives, serialized and
    parsed again. *)
Definition useLoaderData (response : Response) : option LoaderData :=
  match body_of response with
  | BodyLoaderData data =>
      Some (mkLoaderData (theme data) (user data) (Json.roundtrip (ENV data)))
  | _ => None
  end.

(** The inline script that sets [window.ENV]. *)
Definition env_script (data : LoaderData) : Element :=
  El "script"
     [("dangerouslySetInnerHTML", "window.ENV = " +:+ Json.stringify (ENV data))] [].

(** [Document]; [t] is what [useTheme()] reads and [data] what
    [useLoaderData()] reads. *)
Definition Document (t : ThemeContext) (data : LoaderData)
    (children : list Element) (title : option string) : Element :=
  El "html" [("lang", "en"); ("className", cx (ctx_theme t))]
    [ El "head" []
        ([ El "meta" [("charSet", "utf-8")] [];
           meta_el "viewport" "width=device-width,initial-scale=1";
           meta_el "theme-color" "#f59e0b";
           meta_el "description" description;
           meta_el "msapplication-TileColor" "#f59e0b" ]
         ++ icon_links
         ++ [ Comp "NonFlashOfWrongThemeEls"
                [("ssrTheme", bool_prop (match theme data with Some _ => true | None => false end))] [] ]
         ++ title_el title
         ++ [ Comp "Meta" [] []; Comp "Links" [] [] ]);
      El "body"
        [("className", "bg-white selection:bg-amber-400 dark:bg-gray-900 dark:selection:text-black")]
        (children
         ++ [ Comp "ScrollRestoration" [] [];
              env_script data;
              Comp "Scripts" [] [];
              Comp "LiveReload" [] [] ]) ].

Definition ErrorDocument (children : list Element) (title : option string) : Element :=
  El "html" [("lang", "en"); ("className", "dark")]
    [ El "head" []
        ([ El "meta" [("charSet", "utf-8")] [];
           meta_el "viewport" "width=device-width,initial-scale=1";
           meta_el "theme-color" "#f59e0b";
           meta_el "msapplication-TileColor" "#f59e0b";
           meta_el "description" description ]
         ++ icon_links
         ++ title_el title
         ++ [ Comp "Meta" [] []; Comp "Links" [] [] ]);
      El "body" [("className", "bg-white dark:bg-gray-900")]
        (children
         ++ [ Comp "Scripts" [] [];
              Comp "LiveReload" [] [] ]) ].

Definition theme_prop (theme : option Theme) : string :=
  match theme with
  | Some t => theme_value t
  | None => "null"
  end.

Definition App (data : LoaderData) : Element :=
  Comp "ThemeProvider" [("specifiedTheme", theme_prop (theme data))]
    [ Document (ThemeProvider_context (theme data)) data
        [ Comp "ToastPrimitive.Provider" []
            [ Comp "Outlet" [] []; Comp "ToastPrimitive.Viewport" [] [] ] ]
        None ].

Definition ErrorBoundary (error : Error) : M Element :=
  console_error error ;;
  ret (Comp "ThemeProvider" [("specifiedTheme", "null")]
         [ ErrorDocument
             [ Comp "ErrorLayout" []
                 [ El "div" []
                     [ El "h1" [] [Txt "There was an error"];
                       El "p" [] [Txt (message error)];
                       El "p" [] [Txt "Oops. Something went wrong. We're looking into it."] ] ] ]
             (Some "Error! - Infonomic Remix Workbench App") ]).

(** What [useCatch()] yields: the caught response, its body parsed into
    [data]. *)
Record Caught : Type := mkCaught {
  caught_status : Z;
  statusText : string;
  data : JsValue
}.

Definition CatchBoundary (caught : Caught) : M Element :=
  message <-
    (if caught_status caught =? 401 then
       ret (El "p" [] [Txt "Oops! Looks like you tried to visit a page that you do not have access to."])
     else if caught_status caught =? 404 then
       ret (El "p" [] [Txt "Oops! Looks like you tried to visit a page that does not exist."])
     else
       throw (ThrownError (new_Error (Js.or (data caught) (JsString (statusText caught)))))) ;;
  ret (Comp "ThemeProvider" [("specifiedTheme", "null")]
         [ ErrorDocument
             [ Comp "ErrorLayout" []
                 [ El "h1" []
                     [ Txt (pretty (caught_status caught)); Txt ": ";
                       Txt (statusText caught) ];
                   message ] ]
             (Some (pretty (caught_status caught) +:+ " " +:+ statusText caught)) ]).

(** How the framework enters the boundaries of the root route. *)
Inductive BoundaryEntry : Type :=
| UncaughtException (error : Error)
| CaughtStatus (caught : Caught).

(** Modelled from the spec: the hand-off between the two boundaries is the
    framework's and not part of the source at hand.  The spec gives two
    entry points, both terminal: an uncaught exception enters
    [ErrorBoundary]; a caught status enters [CatchBoundary], and what that
    re-raises delegates to the uncaught-exception state, carrying the
    response's body or status text as the message. *)
Definition boundary (entry : BoundaryEntry) : M Element :=
  match entry with
  | UncaughtException error => ErrorBoundary error
  | CaughtStatus caught =>
      catch (CatchBoundary caught)
        (fun t =>
           match t with
           | ThrownError error => ErrorBoundary error
           | ThrownResponse _ => throw t
           end)
  end.

Section WithCollaborators.
Context `{Collaborators}.

(** A document request: the loader runs, then [App] renders its data. *)
Definition render (request : Request) : M Element :=
  response <- loader request ;;
  match useLoaderData response with
  | Some data => ret (App data)
  | None => throw (ThrownError (mkError "no loader data"))
  end.

End WithCollaborators.

End Root.

(** ** app/routes/_app+/notes.new.tsx *)

Module NotesNew.
Import Js Model Eff Server Zod.
Local Open Scope eff_scope.

(** [note?.title] inside a template literal. *)
Definition optional_title (note : option Note) : string :=
  match note with
  | Some n => to_string (JsString (title n))
  | None => to_string JsUndefined
  end.

Definition success_message (note : option Note) : string :=
  "Note with title: '" +:+ optional_title note +:+ "' was successfully created.".

Section WithCollaborators.
Context `{Collaborators}.

(** [request.formData()] *)
Definition formData (request : Request) : M FormData :=
  ret (form request).

Definition action (request : Request) : M Response :=
  joined <- promise_all3 (requireUserId request) (getSession request) (formData request) ;;
  let userId := fst (fst joined) in
  let session := snd (fst joined) in
  let formData := snd joined in
  let parseResult := safeParse formData in
  match parseResult with
  | ParseFailure error =>
      ret (Http.json (BodyErrors (format error)) (Some 400))
  | ParseSuccess data =>
      note <- createNote (mkNoteInput (f_title data) (f_body data) userId) ;;
      let session := flash "success" (success_message note) session in
      ret (Http.redirect "/notes" [("Set-Cookie", commitSession session)])
  end.

End WithCollaborators.

End NotesNew.

(** ** app/routes/theme.tsx *)

Module ThemeRoute.
Import Js Model Eff Server.
Local Open Scope eff_scope.

Section WithCollaborators.
Context `{Collaborators}.

Definition loader (request : Request) : M JsValue :=
  requireUserId request ;;
  ret JsNull.

End WithCollaborators.

End ThemeRoute.

(** ** A concrete setting

    Modelled from the spec: the schema of ~/modules/notes is not part of the
    source at hand; a note needs a [title] and a [body], and a field that is
    missing is reported under its name. *)

Module Setting.
Import Model Zod.

Definition field (name : string) (fd : FormData) : option string :=
  snd <$> List.find (fun kv => String.eqb (fst kv) name) fd.

Definition required (name : string) (fd : FormData) : ZodError :=
  match field name fd with
  | Some _ => []
  | None => [mkIssue name "Required"]
  end.

Definition notes_schema (fd : FormData) : SafeParseResult :=
  match field "title" fd, field "body" fd with
  | Some t, Some b => ParseSuccess (mkNoteFields t b)
  | _, _ => ParseFailure (required "title" fd ++ required "body" fd)
  end.

#[export] Instance collaborators : Collaborators := {
  safeParse := notes_schema;
  commitSession := fun s =>
    Json.join ";" (map (fun kv => fst kv +:+ "=" +:+ snd kv) (map_to_list s));
  login_location := fun request => "/login?redirectTo=" +:+ url request;
  fresh_note_id := fun store => pretty (Z.of_nat (length store));
  find_user := fun id => Some (mkUser id (id +:+ "@example.com"))
}.

Definition world0 : World :=
  mkWorld (<["SESSION_SECRET" := "s3cret"]> (<["RECAPTCHA_ENABLED" := "true"]> ∅)) [] [].

Definition anonymous_post (fd : FormData) : Request :=
  mkRequest "/notes/new" ∅ None fd.

Definition user_post (fd : FormData) : Request :=
  mkRequest "/notes/new" (<["userId" := "u1"]> ∅) (Some DARK) fd.

End Setting.

(** ** String methods *)

Module Str.

(** [s.length] *)
Definition length (s : string) : Z := Z.of_nat (String.length s).

(** How [slice] reads an index: a negative one counts from the end, and
    both are kept within the string. *)
Definition clamp (len i : Z) : Z :=
  if i <? 0 then Z.max (len + i) 0 else Z.min i len.

(** [s.slice(start, end)], for integral indices. *)
Definition slice (s : string) (start end_ : Z) : string :=
  let len := length s in
  let from := clamp len start in
  let to := clamp len end_ in
  substring (Z.to_nat from) (Z.to_nat (Z.max (to - from) 0)) s.

Fixpoint lastIndexOf_from (s : string) (c : ascii) (i found : Z) : Z :=
  match s with
  | EmptyString => found
  | String a rest => lastIndexOf_from rest c (i + 1) (if Ascii.eqb a c then i else found)
  end.

(** [s.lastIndexOf(c)] for a one-character [c]: the last position of [c],
    or -1. *)
Definition lastIndexOf (s : string) (c : ascii) : Z := lastIndexOf_from s c 0 (-1).

End Str.

(** ** app/utils.ts, continued *)

Module UtilsText.
Import Js.

(** [validateEmail]; the argument is [unknown]. *)
Definition validateEmail (email : JsValue) : bool :=
  is_string email &&
  match email with
  | JsString s => (Str.length s >? 3) && includes s "@"
  | _ => false
  end.

(** [truncate], for an integral [length]. *)
Definition truncate (str : string) (length : Z) (useWordBoundary : bool) : string :=
  if negb (truthy (JsString str)) || (Str.length str <=? length) then str
  else
    let subString := Str.slice str 0 (length - 2) in
    (if useWordBoundary
     then Str.slice subString 0 (Str.lastIndexOf subString " ")
     else subString) +:+ "...".

End UtilsText.

Module UtilsHooks.
Import Js Eff.

(** Loader data as the hooks see it: any value, an object being its
    properties. *)
Inductive Value : Type :=
| VUndefined
| VNull
| VBool (b : bool)
| VNumber (n : Z)
| VString (s : string)
| VObject (props : list (string * Value)).

Definition truthy (v : Value) : bool :=
  match v with
  | VUndefined | VNull => false
  | VBool b => b
  | VNumber n => negb (n =? 0)
  | VString s => negb (String.eqb s "")
  | VObject _ => true
  end.

(** [typeof v === 'object'] *)
Definition is_object (v : Value) : bool :=
  match v with
  | VNull | VObject _ => true
  | _ => false
  end.

(** [typeof v === 'string'] *)
Definition is_string (v : Value) : bool :=
  match v with VString _ => true | _ => false end.

(** [v.name], for a name that no prototype defines; [v] is not nullish. *)
Definition get (v : Value) (name : string) : Value :=
  match v with
  | VObject props =>
      match List.find (fun p => String.eqb (fst p) name) props with
      | Some p => snd p
      | None => VUndefined
      end
  | _ => VUndefined
  end.

(** A route match as [useMatches()] lists them. *)
Record RouteMatch : Type := mkRouteMatch {
  id : string;
  data : Value
}.

(** [useMatchesData]; [matchingRoutes] is what [useMatches()] yields. *)
Definition useMatchesData (matchingRoutes : list RouteMatch) (id_ : string) : Value :=
  let route := List.find (fun r => String.eqb (id r) id_) matchingRoutes in
  match route with
  | Some r => data r
  | None => VUndefined
  end.

(** [isUser]: [a && b] is [a] when [a] is falsy. *)
Definition isUser (user : Value) : Value :=
  if truthy user
  then VBool (is_object user && is_string (get user "email"))
  else user.

Definition useOptionalUser (matchingRoutes : list RouteMatch) : Value :=
  let data := useMatchesData matchingRoutes "root" in
  if negb (truthy data) || negb (truthy (isUser (get data "user"))) then VUndefined
  else get data "user".

Definition useUser (matchingRoutes : list RouteMatch) : Outcome Value :=
  let maybeUser := useOptionalUser matchingRoutes in
  if negb (truthy maybeUser) then
    Threw (Model.ThrownError (new_Error (JsString
      "No user found in root loader, but user is required by useUser. If user is optional, try useOptionalUser instead.")))
  else Returned maybeUser.

End UtilsHooks.

(** ** app/routes/_app+/notes.new.tsx: the page *)

Module NotesNewPage.
Import Model.

Definition fields : list string := ["title"; "body"].

(** The effect of [NewNotePage] that runs when the server's errors change:
    the field [setFocus] is called with, if it is called.  An entry of the
    formatted errors is an object, so it is truthy when it is there. *)
Definition focus_effect (serverErrors : option FieldErrors) : option string :=
  match serverErrors with
  | Some errors =>
      List.find (fun name => match errors !! name with Some _ => true | None => false end) fields
  | None => None
  end.

(** [actionData?.errors] for the response of the action. *)
Definition server_errors (actionData : option Response) : option FieldErrors :=
  match actionData with
  | Some response =>
      match body_of response with
      | BodyErrors errors => Some errors
      | _ => None
      end
  | None => None
  end.

End NotesNewPage.

(** * Properties *)

(** ** Vocabulary of the properties *)

Module Props.
Import Js Model Jsx.

(** The inputs [safeRedirect] turns down: [null], [undefined], the empty
    string, anything that is not a string, a string that does not start
    with a slash, a string that starts with two. *)
Definition unsafe_target (to : JsValue) : Prop :=
  to = JsNull \/ to = JsUndefined \/ to = JsString "" \/ is_string to = false \/
  exists s, to = JsString s /\ (startsWith s "/" = false \/ startsWith s "//" = true).

(** A path that begins with exactly one slash. *)
Definition single_slash (s : string) : bool :=
  startsWith s "/" && negb (startsWith s "//").

Definition is_boolean (v : JsValue) : Prop := exists b, v = JsBool b.

(** A document leaves a kind of node out when every node of that kind in it
    came in with the page content it wraps. *)
Definition omits (p : Element -> bool) (children : list Element) (doc : Element) : Prop :=
  forall n, In n (nodes doc) -> p n = true -> In n (flat_map nodes children).

(** The reduced error document as the specification describes it: the
    fixed root class, no theme guard, no inline script, no live reload. *)
Definition reduced_as_claimed (children : list Element) (title : option string) : Prop :=
  prop "className" (Root.ErrorDocument children title) = Some "dark" /\
  omits (is_comp "NonFlashOfWrongThemeEls") children (Root.ErrorDocument children title) /\
  omits (is_el "script") children (Root.ErrorDocument children title) /\
  omits (is_comp "LiveReload") children (Root.ErrorDocument children title).

Section Handlers.
Context `{Collaborators}.


(** The write path accepting a form as the specification describes it: one
    more note in the store, and a redirect to the listing route that
    carries a Set-Cookie header. *)
Definition created_and_redirected (request : Request) (w : World) : Prop :=
  exists response note w',
    NotesNew.action request w = (Eff.Returned response, w') /\
    notes w' = notes w ++ [note] /\
    status response = 302 /\
    Http.headers_get "Location" (headers response) = Some "/notes" /\
    Http.headers_has "Set-Cookie" (headers response) = true.

End Handlers.

End Props.

(** ** The definitions at work *)

Section Examples.
Import Js Model Eff Jsx Server Zod Props Setting.

Example safeRedirect_examples :
  Utils.safeRedirect JsNull None = "/" /\
  Utils.safeRedirect (JsString "/notes?sort=asc") None = "/notes?sort=asc" /\
  Utils.safeRedirect (JsString "https://evil.example") (Some "/home") = "/home" /\
  Utils.safeRedirect (JsString "//evil.example") None = "/" /\
  Utils.safeRedirect (JsObject "[object File]") None = "/".
Proof. repeat split. Qed.

Example isBusy_examples :
  Utils.isBusy (Utils.mkTransition Utils.Idle Utils.TyIdle) = JsBool false /\
  Utils.isBusy (Utils.mkTransition Utils.Submitting Utils.ActionSubmission) = JsBool true /\
  Utils.isBusy (Utils.mkTransition Utils.Loading Utils.ActionReload) = JsBool true /\
  Utils.isBusy (Utils.mkTransition Utils.Loading Utils.NormalRedirect) = JsUndefined.
Proof. repeat split. Qed.

Example format_example :
  format [mkIssue "title" "Required"; mkIssue "body" "Required"; mkIssue "title" "Too long"]
    !! "title" = Some ["Required"; "Too long"].
Proof. vm_compute. reflexivity. Qed.

Example stringify_example :
  Json.stringify [("RECAPTCHA_ENABLED", Some "true"); ("RECAPTCHA_SITE_KEY", None)] =
    "{" +:+ Json.quote "RECAPTCHA_ENABLED" +:+ ":" +:+ Json.quote "true" +:+ "}" /\
  String.length (Json.quote "a\b") = 6%nat.
Proof. split; reflexivity. Qed.

(** A caught 500 with an empty body: [CatchBoundary] throws an error that
    carries the status text, [ErrorBoundary] logs it and renders. *)
Example boundary_example :
  fst (Root.CatchBoundary (Root.mkCaught 500 "Internal Server Error" (JsString "")) world0) =
    Threw (ThrownError (mkError "Internal Server Error")) /\
  console (snd (Root.boundary
                  (Root.CaughtStatus (Root.mkCaught 500 "Internal Server Error" (JsString "")))
                  world0)) =
    [mkError "Internal Server Error"].
Proof. split; reflexivity. Qed.

Example action_example :
  notes (snd (NotesNew.action (user_post [("title", "T"); ("body", "B")]) world0)) =
    [mkNote "0" "T" "B" "u1"] /\
  notes (snd (NotesNew.action (user_post [("title", "T")]) world0)) = [].
Proof. split; reflexivity. Qed.

End Examples.

(** ** app/utils.ts *)

Section UtilsFacts.
Import Js Utils Props.

Lemma safeRedirect_string (s : string) (d : option string) :
  safeRedirect (JsString s) d =
    if startsWith s "/" && negb (startsWith s "//") then s else default_arg d.
Proof.
  unfold safeRedirect. cbn [truthy is_string].
  destruct s as [|c s]; [reflexivity|]. cbn [String.eqb negb orb].
  destruct (startsWith (String c s) "/"), (startsWith (String c s) "//"); reflexivity.
Qed.

Lemma safeRedirect_not_string (to : JsValue) (d : option string) :
  is_string to = false -> safeRedirect to d = default_arg d.
Proof.
  intros Hs. unfold safeRedirect. rewrite Hs, orb_true_r. reflexivity.
Qed.

Lemma unsafe_target_string (s : string) :
  unsafe_target (JsString s) <-> single_slash s = false.
Proof.
  unfold unsafe_target, single_slash. split.
  - intros [Hn|[Hu|[He|[Hs|(s' & Heq & Hp)]]]]; try discriminate.
    + injection He as ->. reflexivity.
    + injection Heq as <-. destruct Hp as [-> | ->]; [reflexivity|].
      apply andb_false_r.
  - intros Hp. right; right; right; right. exists s. split; [reflexivity|].
    destruct (startsWith s "/"); [right|left; reflexivity].
    destruct (startsWith s "//"); [reflexivity|discriminate].
Qed.

(** C9: [safeRedirect] answers the default redirect, which is ["/"] when
    none is supplied and the supplied one otherwise, for [null],
    [undefined], the empty string, a value that is not a string, a string
    that does not start with ["/"] and a string that starts with ["//"];
    any other input is a string and comes back unchanged, whatever the
    default; so when the default begins with a single ["/"], so does the
    result. *)
Theorem safeRedirect_spec (to : JsValue) :
  (unsafe_target to ->
   safeRedirect to None = "/" /\
   forall supplied, safeRedirect to (Some supplied) = supplied) /\
  (~ unsafe_target to ->
   exists s, to = JsString s /\ forall d, safeRedirect to d = s) /\
  single_slash (safeRedirect to None) = true /\
  (forall supplied,
     single_slash supplied = true ->
     single_slash (safeRedirect to (Some supplied)) = true).
Proof.
  destruct (is_string to) eqn:Hstr.
  - destruct to as [| |b|n|s|r]; try discriminate.
    pose proof (unsafe_target_string s) as Hu.
    assert (Hres : forall d, safeRedirect (JsString s) d =
                             if single_slash s then s else default_arg d).
    { intros d. rewrite safeRedirect_string. reflexivity. }
    destruct (single_slash s) eqn:Hss.
    + split; [|split; [|split]].
      * intros Hun. apply Hu in Hun. discriminate.
      * intros _. exists s. split; [reflexivity|]. intros d. apply Hres.
      * rewrite Hres. exact Hss.
      * intros supplied _. rewrite Hres. exact Hss.
    + split; [|split; [|split]].
      * intros _. split; [rewrite Hres; reflexivity|].
        intros supplied. rewrite Hres. reflexivity.
      * intros Hsafe. elim Hsafe. apply Hu. reflexivity.
      * rewrite Hres. reflexivity.
      * intros supplied Hd. rewrite Hres. exact Hd.
  - assert (Hres : forall d, safeRedirect to d = default_arg d)
      by (intros d; apply safeRedirect_not_string, Hstr).
    split; [|split; [|split]].
    + intros _. split; [rewrite Hres; reflexivity|].
      intros supplied. rewrite Hres. reflexivity.
    + intros Hsafe. elim Hsafe. right; right; right; left. exact Hstr.
    + rewrite Hres. reflexivity.
    + intros supplied Hd. rewrite Hres. exact Hd.
Qed.

(** C9, at concrete inputs: a protocol-relative target is turned down in
    favour of the default, supplied or not; a local path is kept; a file
    entry gives the supplied default. *)
Lemma safeRedirect_spec_witness :
  (safeRedirect (JsString "//evil.example") None = "/" /\
   forall supplied, safeRedirect (JsString "//evil.example") (Some supplied) = supplied) /\
  (exists s, JsString "/notes" = JsString s /\
             forall d, safeRedirect (JsString "/notes") d = s) /\
  single_slash (safeRedirect (JsObject "[object File]") (Some "/login")) = true.
Proof.
  split; [|split].
  - apply (proj1 (safeRedirect_spec (JsString "//evil.example"))).
    right; right; right; right. exists "//evil.example". split; [reflexivity|].
    right. reflexivity.
  - apply (proj1 (proj2 (safeRedirect_spec (JsString "/notes")))).
    intros Hun. apply unsafe_target_string in Hun. discriminate.
  - apply (proj2 (proj2 (proj2 (safeRedirect_spec (JsObject "[object File]"))))).
    reflexivity.
Defined.

Lemma isBusy_loading (ty : TransitionType) :
  isBusy (mkTransition Loading ty) =
    match ty with
    | ActionRedirect | ActionReload => JsBool true
    | _ => JsUndefined
    end.
Proof. destruct ty; vm_compute; reflexivity. Qed.

(** C10: in state ['loading'] with a type other than ['actionRedirect']
    and ['actionReload'], [isBusy] yields [undefined], not [false], so its
    result is not always a boolean; it yields [true] exactly in state
    ['submitting'] and in state ['loading'] with one of those two types. *)
Theorem isBusy_spec (t : Transition) :
  (state t = Loading -> type t <> ActionRedirect -> type t <> ActionReload ->
   isBusy t = JsUndefined /\ isBusy t <> JsBool false /\ ~ is_boolean (isBusy t)) /\
  (isBusy t = JsBool true <->
   state t = Submitting \/
   (state t = Loading /\ (type t = ActionRedirect \/ type t = ActionReload))).
Proof.
  destruct t as [st ty]. cbn [state type]. split.
  - intros -> Hr Hl. rewrite isBusy_loading.
    destruct ty; try congruence;
      (split; [reflexivity|split; [discriminate|intros [b Hb]; discriminate]]).
  - destruct st.
    + split; [discriminate|]. intros [?|[? _]]; discriminate.
    + split; [intros _; left; reflexivity|reflexivity].
    + rewrite isBusy_loading. split.
      * intros Hb. right. split; [reflexivity|].
        destruct ty; try discriminate; [right|left]; reflexivity.
      * intros [?|[_ [-> | ->]]]; [discriminate| |]; reflexivity.
Qed.

(** C10, at a plain page load. *)
Lemma isBusy_spec_witness :
  isBusy (mkTransition Loading NormalLoad) = JsUndefined /\
  isBusy (mkTransition Loading NormalLoad) <> JsBool false /\
  ~ is_boolean (isBusy (mkTransition Loading NormalLoad)).
Proof.
  apply (proj1 (isBusy_spec (mkTransition Loading NormalLoad)));
    [reflexivity|discriminate|discriminate].
Defined.

End UtilsFacts.

(** ** app/root.tsx: the boundaries *)

Section BoundaryFacts.
Import Js Model Eff Jsx Server Root Props.



(** C5: for every uncaught exception that reaches [ErrorBoundary], the
    boundary logs it and renders once: it returns one tree holding exactly
    one document, the reduced error document, in which both the generic
    "something went wrong" line and the error's own message appear; it
    throws nothing, for any error and any world. *)
Theorem ErrorBoundary_renders_once (error : Error) (w : World) :
  boundary (UncaughtException error) w = ErrorBoundary error w /\
  exists content,
    ErrorBoundary error w =
      (Returned (Comp "ThemeProvider" [("specifiedTheme", "null")]
                   [ErrorDocument content (Some "Error! - Infonomic Remix Workbench App")]),
       mkWorld (process_env w) (notes w) (console w ++ [error])) /\
    filter (fun n => is_el "html" n)
      (nodes (Comp "ThemeProvider" [("specifiedTheme", "null")]
                [ErrorDocument content (Some "Error! - Infonomic Remix Workbench App")])) =
      [ErrorDocument content (Some "Error! - Infonomic Remix Workbench App")] /\
    In (message error)
       (texts (ErrorDocument content (Some "Error! - Infonomic Remix Workbench App"))) /\
    In "Oops. Something went wrong. We're looking into it."
       (texts (ErrorDocument content (Some "Error! - Infonomic Remix Workbench App"))) /\
    includes "Oops. Something went wrong. We're looking into it." "omething went wrong" = true /\
    forall t, fst (ErrorBoundary error w) <> Threw t.
Proof.
  split; [reflexivity|].
  eexists. split; [reflexivity|]. split; [reflexivity|].
  split; [cbn; tauto|]. split; [cbn; tauto|]. split; [reflexivity|].
  intros t Ht. discriminate Ht.
Qed.



End BoundaryFacts.

(** ** app/root.tsx: the documents *)

Section DocumentFacts.
Import Js Model Eff Jsx Server Root Props.
Context `{Collaborators}.

Lemma nodes_El (tag : string) (ps : list (string * string)) (cs : list Element) :
  nodes (El tag ps cs) = El tag ps cs :: flat_map nodes cs.
Proof. reflexivity. Qed.

(** The nodes of the reduced document: what the shell puts before the page
    content, the page content, and the two framework components after it. *)
Lemma nodes_ErrorDocument (children : list Element) (title : option string) :
  exists pre,
    nodes (ErrorDocument children title) =
      pre ++ flat_map nodes children ++ [Comp "Scripts" [] []; Comp "LiveReload" [] []] /\
    forallb (fun n => negb (is_el "script" n || is_comp "NonFlashOfWrongThemeEls" n
                        || is_comp "ScrollRestoration" n)) pre = true.
Proof.
  unfold ErrorDocument.
  match goal with |- context [El "html" _ [?h; _]] => set (head := h) end.
  rewrite nodes_El. cbn [flat_map]. rewrite nodes_El, flat_map_app, app_nil_r.
  eexists (_ :: nodes head ++ [_]). split.
  - cbn [app]. rewrite <- app_assoc. cbn [app]. reflexivity.
  - cbn [forallb]. rewrite forallb_app. cbn [forallb]. subst head.
    destruct title as [[|c t]|]; reflexivity.
Qed.

(** The nodes of the main document; the element that guards against a flash
    of the wrong theme is the seventeenth node, before the page content. *)
Lemma nodes_Document (t : ThemeContext) (data : LoaderData)
    (children : list Element) (title : option string) :
  exists pre,
    nodes (Document t data children title) =
      pre ++ flat_map nodes children
          ++ [Comp "ScrollRestoration" [] []; env_script data;
              Comp "Scripts" [] []; Comp "LiveReload" [] []] /\
    forallb (fun n => negb (is_client_script n)) pre = true /\
    pre !! 16%nat =
      Some (Comp "NonFlashOfWrongThemeEls"
              [("ssrTheme", bool_prop (match theme data with Some _ => true | None => false end))] []).
Proof.
  unfold Document.
  match goal with |- context [El "html" _ [?h; _]] => set (head := h) end.
  rewrite nodes_El. cbn [flat_map]. rewrite nodes_El, flat_map_app, app_nil_r.
  eexists (_ :: nodes head ++ [_]). split; [|split].
  - cbn [app]. rewrite <- app_assoc. cbn [app]. reflexivity.
  - cbn [forallb]. rewrite forallb_app. cbn [forallb]. subst head.
    destruct title as [[|c s]|]; reflexivity.
  - subst head. reflexivity.
Qed.



Lemma loader_returns (request : Request) (w : World) :
  Root.loader request w =
    (Returned (Http.json
       (BodyLoaderData
          (mkLoaderData (theme_cookie request)
             (match session_cookie request !! USER_SESSION_KEY with
              | Some userId => find_user userId
              | None => None
              end)
             [("RECAPTCHA_ENABLED", process_env w !! "RECAPTCHA_ENABLED");
              ("RECAPTCHA_SITE_KEY", process_env w !! "RECAPTCHA_SITE_KEY")]))
       None), w).
Proof.
  unfold Root.loader, getTheme, getUser, getSession, process_env_get, get_world, bind, ret.
  destruct (session_cookie request !! USER_SESSION_KEY); reflexivity.
Qed.

Lemma render_returns (request : Request) (w : World) :
  exists data,
    fst (Root.loader request w) = Returned (Http.json (BodyLoaderData data) None) /\
    Root.render request w =
      (Returned (App (mkLoaderData (theme data) (user data) (Json.roundtrip (ENV data)))), w).
Proof.
  eexists. rewrite loader_returns. split; [reflexivity|].
  unfold render, bind. rewrite loader_returns. reflexivity.
Qed.

End DocumentFacts.

Section DocumentClaims.
Import Js Model Eff Jsx Server Root Props.
Context `{Collaborators}.

Lemma lookup_after_prefix {A} (p : A -> bool) (pre rest : list A) (i : nat) (x : A) :
  forallb p pre = true -> (pre ++ rest) !! i = Some x -> p x = false ->
  (length pre <= i)%nat.
Proof.
  intros Hall Hi Hx.
  destruct (Nat.le_gt_cases (length pre) i) as [Hle|Hlt]; [exact Hle|].
  rewrite lookup_app_l in Hi by exact Hlt.
  assert (Hin : In x pre).
  { apply list_elem_of_In. apply list_elem_of_lookup. exists i. exact Hi. }
  rewrite forallb_forall in Hall. rewrite (Hall x Hin) in Hx. discriminate.
Qed.

Lemma omits_ErrorDocument (p : Element -> bool) (children : list Element)
    (title : option string) :
  (forall n, p n = true ->
     (is_el "script" n || is_comp "NonFlashOfWrongThemeEls" n
      || is_comp "ScrollRestoration" n) = true) ->
  omits p children (ErrorDocument children title).
Proof.
  intros Hp n Hin Hn.
  destruct (nodes_ErrorDocument children title) as (pre & Hnodes & Hpre).
  rewrite Hnodes in Hin. apply in_app_iff in Hin. destruct Hin as [Hin|Hin].
  - rewrite forallb_forall in Hpre. specialize (Hpre n Hin).
    rewrite (Hp n Hn) in Hpre. discriminate.
  - apply in_app_iff in Hin. destruct Hin as [Hin|Hin]; [exact Hin|].
    specialize (Hp n Hn).
    destruct Hin as [<-|[<-|[]]]; discriminate.
Qed.

(** C6 (as amended): every render of the reduced error document carries
    the fixed root class "dark", whatever its arguments; the shell itself
    emits no theme-guard element, no inline script (so no environment
    globals) and no scroll restoration: any such node came in with the page
    content.  It does emit both the framework's script tags ([Scripts])
    and the live-reload component ([LiveReload]), in that order, as the
    last two nodes of the document. *)
Theorem ErrorDocument_reduced (children : list Element) (title : option string) :
  is_el "html" (ErrorDocument children title) = true /\
  prop "className" (ErrorDocument children title) = Some "dark" /\
  omits (is_comp "NonFlashOfWrongThemeEls") children (ErrorDocument children title) /\
  omits (is_el "script") children (ErrorDocument children title) /\
  omits (is_comp "ScrollRestoration") children (ErrorDocument children title) /\
  In (Comp "Scripts" [] []) (nodes (ErrorDocument children title)) /\
  In (Comp "LiveReload" [] []) (nodes (ErrorDocument children title)) /\
  exists before,
    nodes (ErrorDocument children title) =
      before ++ [Comp "Scripts" [] []; Comp "LiveReload" [] []].
Proof.
  split; [reflexivity|]. split; [reflexivity|].
  split; [|split; [|split]].
  - apply omits_ErrorDocument. intros n ->. rewrite orb_true_r. reflexivity.
  - apply omits_ErrorDocument. intros n ->. reflexivity.
  - apply omits_ErrorDocument. intros n ->. apply orb_true_r.
  - destruct (nodes_ErrorDocument children title) as (pre & -> & _).
    split; [|split].
    + rewrite !in_app_iff. right; right. cbn. tauto.
    + rewrite !in_app_iff. right; right. cbn. tauto.
    + exists (pre ++ flat_map nodes children). rewrite <- app_assoc. reflexivity.
Qed.

(** C6, as the specification words it, fails on the reduced document with no
    page content and no title: the live-reload component is there. *)
Lemma ErrorDocument_wires_live_reload : ~ reduced_as_claimed [] None.
Proof.
  intros (_ & _ & _ & Hlive).
  apply (Hlive (Comp "LiveReload" [] [])); [vm_compute; tauto|reflexivity].
Qed.

(** On the server, for every request whose theme session holds "dark":
    the root loader's payload carries that theme, the document rendered
    from it has "dark" as the class of its root [html] element, the element
    that guards against a flash of the wrong theme is emitted with
    [ssrTheme] true, and every client script of the document (the inline
    script, [Scripts], [LiveReload]) comes after it in document order.
    What the browser does once those scripts run is outside this model. *)
Theorem dark_theme_rendered_by_server (request : Request) (w : World)
    (Hdark : theme_cookie request = Some DARK) :
  exists data doc,
    fst (Root.loader request w) = Returned (Http.json (BodyLoaderData data) None) /\
    theme data = Some DARK /\
    Root.render request w =
      (Returned (Comp "ThemeProvider" [("specifiedTheme", "dark")] [doc]), w) /\
    is_el "html" doc = true /\
    prop "className" doc = Some "dark" /\
    nodes doc !! 0%nat = Some doc /\
    exists k,
      nodes doc !! k = Some (Comp "NonFlashOfWrongThemeEls" [("ssrTheme", "true")] []) /\
      forall i n, nodes doc !! i = Some n -> is_client_script n = true -> (k < i)%nat.
Proof.
  destruct (render_returns request w) as (data & Hload & Hrender).
  pose proof (loader_returns request w) as Hl. rewrite Hl in Hload. cbn [fst] in Hload.
  injection Hload as Hdata. subst data. cbn [theme user ENV] in Hrender.
  rewrite Hdark in Hrender. unfold App in Hrender. cbn [theme theme_prop theme_value] in Hrender.
  eexists. eexists. split; [rewrite Hl; reflexivity|].
  split; [exact Hdark|]. split; [exact Hrender|].
  split; [reflexivity|]. split; [reflexivity|]. split; [reflexivity|].
  match goal with |- context [nodes (Document ?t ?d ?c ?ti)] =>
    destruct (nodes_Document t d c ti) as (pre & Hnodes & Hpre & H16) end.
  exists 16%nat. rewrite Hnodes. split.
  - rewrite lookup_app_l by (apply lookup_lt_Some in H16; exact H16). exact H16.
  - intros i n Hi Hn.
    apply lookup_lt_Some in H16.
    enough (length pre <= i)%nat by lia.
    apply (lookup_after_prefix (fun n => negb (is_client_script n)) pre _ i n Hpre Hi).
    rewrite Hn. reflexivity.
Qed.

End DocumentClaims.

Section EnvironmentClaims.
Import Js Model Eff Jsx Server Root Props.
Context `{Collaborators}.



End EnvironmentClaims.

(** ** The documents, at the concrete setting *)

Section DocumentWitnesses.
Import Js Model Eff Jsx Server Root Props Setting.

(** The same, for a signed-in visitor whose theme cookie says "dark". *)
Lemma dark_theme_rendered_by_server_witness :
  exists data doc,
    fst (Root.loader (Setting.user_post []) Setting.world0) =
      Returned (Http.json (BodyLoaderData data) None) /\
    theme data = Some DARK /\
    Root.render (Setting.user_post []) Setting.world0 =
      (Returned (Comp "ThemeProvider" [("specifiedTheme", "dark")] [doc]), Setting.world0) /\
    is_el "html" doc = true /\
    prop "className" doc = Some "dark" /\
    nodes doc !! 0%nat = Some doc /\
    exists k,
      nodes doc !! k = Some (Comp "NonFlashOfWrongThemeEls" [("ssrTheme", "true")] []) /\
      forall i n, nodes doc !! i = Some n -> is_client_script n = true -> (k < i)%nat.
Proof.
  exact (dark_theme_rendered_by_server (Setting.user_post []) Setting.world0 eq_refl).
Defined.


End DocumentWitnesses.

(** ** app/routes/_app+/notes.new.tsx and app/routes/theme.tsx *)

Section HandlerFacts.
Import Js Model Eff Server Zod Props.
Context `{Collaborators}.

Lemma requireUserId_signed_in (request : Request) (w : World) (userId : string) :
  session_cookie request !! USER_SESSION_KEY = Some userId ->
  requireUserId request w = (Returned userId, w).
Proof.
  intros Hu. unfold requireUserId, getSession, bind, ret. rewrite Hu. reflexivity.
Qed.

Lemma requireUserId_anonymous (request : Request) (w : World) :
  session_cookie request !! USER_SESSION_KEY = None ->
  requireUserId request w =
    (Threw (ThrownResponse (Http.redirect (login_location request) [])), w).
Proof.
  intros Hu. unfold requireUserId, getSession, bind, ret, throw. rewrite Hu. reflexivity.
Qed.

Lemma bind_threw {A B} (c : M A) (k : A -> M B) (w w' : World) (t : Thrown) :
  c w = (Threw t, w') -> bind c k w = (Threw t, w').
Proof. intros Hc. unfold bind. rewrite Hc. reflexivity. Qed.

Lemma bind_returned {A B} (c : M A) (k : A -> M B) (w w' : World) (a : A) :
  c w = (Returned a, w') -> bind c k w = k a w'.
Proof. intros Hc. unfold bind. rewrite Hc. reflexivity. Qed.

Lemma login_redirect_is_redirect (request : Request) :
  Http.is_redirect (Http.redirect (login_location request) []) = true.
Proof. reflexivity. Qed.

(** Without a user id in the session the action throws the login redirect
    and leaves the world as it was, whatever the form holds. *)
Lemma action_anonymous (request : Request) (w : World) :
  session_cookie request !! USER_SESSION_KEY = None ->
  NotesNew.action request w =
    (Threw (ThrownResponse (Http.redirect (login_location request) [])), w).
Proof.
  intros Hu. unfold NotesNew.action, promise_all3.
  apply bind_threw, bind_threw, requireUserId_anonymous, Hu.
Qed.

Lemma action_signed_in (request : Request) (w : World) (userId : string) :
  session_cookie request !! USER_SESSION_KEY = Some userId ->
  NotesNew.action request w =
    match safeParse (form request) with
    | ParseFailure error => (Returned (Http.json (BodyErrors (format error)) (Some 400)), w)
    | ParseSuccess data =>
        let note := mkNote (fresh_note_id (notes w)) (f_title data) (f_body data) userId in
        (Returned
           (Http.redirect "/notes"
              [("Set-Cookie",
                commitSession
                  (flash "success" (NotesNew.success_message (Some note))
                     (session_cookie request)))]),
         mkWorld (process_env w) (notes w ++ [note]) (console w))
    end.
Proof.
  intros Hu. unfold NotesNew.action, promise_all3.
  rewrite (bind_returned _ _ w w (userId, session_cookie request, form request)).
  - cbn [fst snd]. destruct (safeParse (form request)); reflexivity.
  - rewrite (bind_returned _ _ w w userId) by (apply requireUserId_signed_in, Hu).
    reflexivity.
Qed.


(** C2: for every POST of an authenticated user (the session carries the
    user id [requireUserId] resolves to) whose form passes the schema,
    [createNote] runs once, adding one note with the parsed title and body
    and that user id; the action returns a 302 redirect to /notes whose
    Set-Cookie header is the committed session, and that session holds the
    success flash message, set after validation, about the new note. *)
Theorem action_creates_note_and_redirects (request : Request) (w : World)
    (userId : string) (data : NoteFields)
    (Huser : session_cookie request !! USER_SESSION_KEY = Some userId)
    (Hvalid : safeParse (form request) = ParseSuccess data) :
  exists response session,
    NotesNew.action request w =
      (Returned response,
       mkWorld (process_env w)
         (notes w ++ [mkNote (fresh_note_id (notes w)) (f_title data) (f_body data) userId])
         (console w)) /\
    status response = 302 /\
    Http.headers_get "Location" (headers response) = Some "/notes" /\
    Http.headers_get "Set-Cookie" (headers response) = Some (commitSession session) /\
    session = flash "success"
                ("Note with title: '" +:+ f_title data +:+ "' was successfully created.")
                (session_cookie request) /\
    session !! "__flash_success__" =
      Some ("Note with title: '" +:+ f_title data +:+ "' was successfully created.") /\
    created_and_redirected request w.
Proof.
  pose proof (action_signed_in request w userId Huser) as Ha.
  rewrite Hvalid in Ha. cbv zeta in Ha.
  eexists. eexists. split; [exact Ha|]. split; [reflexivity|].
  split; [reflexivity|]. split; [reflexivity|]. split; [reflexivity|].
  split; [apply lookup_insert_eq|].
  unfold created_and_redirected. do 3 eexists.
  split; [exact Ha|]. split; [reflexivity|]. split; [reflexivity|].
  split; reflexivity.
Qed.

(** C4: for every request to the theme route whose session has no user
    id, [requireUserId] throws a redirect and the loader throws that same
    response, leaving the world as it was; nothing placed after the call
    gets to run.  With a user id in the session the loader returns [null]. *)
Theorem theme_loader_requires_user (request : Request) (w : World) :
  (session_cookie request !! USER_SESSION_KEY = None ->
   exists response,
     requireUserId request w = (Threw (ThrownResponse response), w) /\
     Http.is_redirect response = true /\
     ThemeRoute.loader request w = (Threw (ThrownResponse response), w) /\
     forall (B : Type) (rest : string -> M B),
       bind (requireUserId request) rest w = (Threw (ThrownResponse response), w)) /\
  (forall userId,
     session_cookie request !! USER_SESSION_KEY = Some userId ->
     ThemeRoute.loader request w = (Returned JsNull, w)).
Proof.
  split.
  - intros Hu. pose proof (requireUserId_anonymous request w Hu) as Hr.
    eexists. split; [exact Hr|]. split; [apply login_redirect_is_redirect|].
    split; [apply bind_threw, Hr|]. intros B rest. apply bind_threw, Hr.
  - intros userId Hu. unfold ThemeRoute.loader.
    rewrite (bind_returned _ _ w w userId) by (apply requireUserId_signed_in, Hu).
    reflexivity.
Qed.

End HandlerFacts.

(** ** The handlers, at the concrete setting *)

Section HandlerWitnesses.
Import Js Model Eff Server Zod Props Setting.



(** C2, for a signed-in visitor who submits a title and a body. *)
Lemma action_creates_note_and_redirects_witness :
  exists response session,
    NotesNew.action (user_post [("title", "T"); ("body", "B")]) world0 =
      (Returned response,
       mkWorld (process_env world0) [mkNote "0" "T" "B" "u1"] (console world0)) /\
    status response = 302 /\
    Http.headers_get "Location" (headers response) = Some "/notes" /\
    Http.headers_get "Set-Cookie" (headers response) = Some (commitSession session) /\
    session = flash "success" "Note with title: 'T' was successfully created."
                (session_cookie (user_post [("title", "T"); ("body", "B")])) /\
    session !! "__flash_success__" = Some "Note with title: 'T' was successfully created." /\
    created_and_redirected (user_post [("title", "T"); ("body", "B")]) world0.
Proof.
  refine (action_creates_note_and_redirects (user_post [("title", "T"); ("body", "B")])
            world0 "u1" (mkNoteFields "T" "B") _ _);
    vm_compute; reflexivity.
Defined.

(** C4, for an anonymous and for a signed-in visitor of the theme route. *)
Lemma theme_loader_requires_user_witness :
  (exists response,
     Http.is_redirect response = true /\
     ThemeRoute.loader (anonymous_post []) world0 = (Threw (ThrownResponse response), world0)) /\
  ThemeRoute.loader (user_post []) world0 = (Returned JsNull, world0).
Proof.
  split.
  - destruct (proj1 (theme_loader_requires_user (anonymous_post []) world0))
      as (response & _ & Hred & Hloader & _); [vm_compute; reflexivity|].
    exists response. split; [exact Hred|exact Hloader].
  - apply (proj2 (theme_loader_requires_user (user_post []) world0) "u1").
    vm_compute; reflexivity.
Defined.

End HandlerWitnesses.

(** * Further properties *)

(** ** Strings *)

Section StringFacts.
Import Js.

Lemma append_cons (x : ascii) (a b : string) : String x a +:+ b = String x (a +:+ b).
Proof. reflexivity. Qed.

Lemma append_empty (b : string) : "" +:+ b = b.
Proof. reflexivity. Qed.

Lemma append_assoc (a b c : string) : (a +:+ b) +:+ c = a +:+ (b +:+ c).
Proof.
  induction a as [|x a IH]; [reflexivity|].
  rewrite !append_cons, IH. reflexivity.
Qed.

Lemma append_length (a b : string) :
  String.length (a +:+ b) = (String.length a + String.length b)%nat.
Proof.
  induction a as [|x a IH]; [reflexivity|].
  rewrite append_cons. cbn [String.length]. rewrite IH. reflexivity.
Qed.

Lemma take_length (n : nat) (s : string) :
  String.length (substring 0 n s) = Nat.min n (String.length s).
Proof.
  revert n. induction s as [|c s IH]; intros [|n]; cbn; try reflexivity.
  rewrite IH. reflexivity.
Qed.

Lemma take_split (n : nat) (s : string) :
  exists rest,
    s = substring 0 n s +:+ rest /\
    String.length rest = (String.length s - Nat.min n (String.length s))%nat.
Proof.
  revert n. induction s as [|c s IH]; intros [|n]; cbn.
  - exists "". split; reflexivity.
  - exists "". split; reflexivity.
  - exists (String c s). split; reflexivity.
  - destruct (IH n) as (rest & Hs & Hl). exists rest. split; [|exact Hl].
    rewrite append_cons, <- Hs. reflexivity.
Qed.

Lemma take_all (n : nat) (s : string) :
  (String.length s <= n)%nat -> substring 0 n s = s.
Proof.
  revert n. induction s as [|c s IH]; intros [|n] Hn; cbn in *; try reflexivity; try lia.
  rewrite IH by lia. reflexivity.
Qed.

Lemma clamp_range (len i : Z) : 0 <= len -> 0 <= Str.clamp len i <= len.
Proof. intros Hl. unfold Str.clamp. destruct (Z.ltb_spec i 0); lia. Qed.

(** A slice from the start is a prefix: the first so many characters. *)
Lemma slice_from_start (s : string) (e : Z) :
  Str.slice s 0 e = substring 0 (Z.to_nat (Str.clamp (Str.length s) e)) s.
Proof.
  unfold Str.slice.
  assert (Hl : 0 <= Str.length s) by (unfold Str.length; lia).
  pose proof (clamp_range (Str.length s) e Hl) as Hc.
  replace (Str.clamp (Str.length s) 0) with 0
    by (unfold Str.clamp; cbn; lia).
  rewrite Z.sub_0_r, Z.max_l by lia. reflexivity.
Qed.

Lemma includes_char (s : string) (c : ascii) :
  includes s (String c "") = true <-> In c (list_ascii_of_string s).
Proof.
  induction s as [|a s IH]; cbn.
  - split; [discriminate|tauto].
  - unfold startsWith. cbn. destruct (ascii_dec c a) as [->|Hne].
    + destruct s; cbn; split; auto.
    + cbn. rewrite IH. split; [auto|]. intros [Heq|Hin]; [congruence|exact Hin].
Qed.

Lemma includes_char_false (s : string) (c : ascii) :
  includes s (String c "") = false <-> ~ In c (list_ascii_of_string s).
Proof.
  rewrite <- includes_char. destruct (includes s (String c "")); split; intros; congruence.
Qed.

(** What [lastIndexOf] finds: nothing, and then the character is not in
    the string, or the place after which it does not occur again. *)
Lemma lastIndexOf_from_spec (s : string) (c : ascii) (i found : Z) :
  (Str.lastIndexOf_from s c i found = found /\ ~ In c (list_ascii_of_string s)) \/
  (exists pre post,
     s = pre +:+ String c post /\
     Str.lastIndexOf_from s c i found = i + Str.length pre /\
     ~ In c (list_ascii_of_string post)).
Proof.
  revert i found. induction s as [|a s IH]; intros i found; cbn.
  - left. split; [reflexivity|tauto].
  - destruct (Ascii.eqb_spec a c) as [->|Hne].
    + right. destruct (IH (i + 1) i) as [[Hr Hnot]|(pre & post & Hs & Hr & Hnot)].
      * exists "", s. split; [reflexivity|]. split; [|exact Hnot].
        rewrite Hr. unfold Str.length. cbn. lia.
      * exists (String c pre), post. split; [rewrite append_cons, <- Hs; reflexivity|].
        split; [|exact Hnot]. rewrite Hr. unfold Str.length. cbn [String.length]. lia.
    + destruct (IH (i + 1) found) as [[Hr Hnot]|(pre & post & Hs & Hr & Hnot)].
      * left. split; [exact Hr|]. intros [Heq|Hin]; [congruence|contradiction].
      * right. exists (String a pre), post. split; [rewrite append_cons, <- Hs; reflexivity|].
        split; [|exact Hnot]. rewrite Hr. unfold Str.length. cbn [String.length]. lia.
Qed.

Lemma lastIndexOf_spec (s : string) (c : ascii) :
  (Str.lastIndexOf s c = -1 /\ ~ In c (list_ascii_of_string s)) \/
  (exists pre post,
     s = pre +:+ String c post /\
     Str.lastIndexOf s c = Str.length pre /\
     ~ In c (list_ascii_of_string post)).
Proof.
  unfold Str.lastIndexOf.
  destruct (lastIndexOf_from_spec s c 0 (-1)) as [H|(pre & post & Hs & Hr & Hn)];
    [left; exact H|right].
  exists pre, post. split; [exact Hs|]. split; [rewrite Hr; lia|exact Hn].
Qed.

Lemma take_append (a b : string) : substring 0 (String.length a) (a +:+ b) = a.
Proof.
  induction a as [|x a IH]; [destruct b; reflexivity|].
  rewrite append_cons. cbn [String.length substring]. rewrite IH. reflexivity.
Qed.

End StringFacts.

(** ** app/utils.ts: [truncate] and [validateEmail] *)

Section TextFacts.
Import Js UtilsText.

Lemma in_append_char (pre post : string) (c : ascii) :
  In c (list_ascii_of_string (pre +:+ String c post)).
Proof.
  induction pre as [|x pre IH]; [left; reflexivity|].
  rewrite append_cons. right. exact IH.
Qed.

(** What [truncate] does once it has decided to cut. *)
Lemma truncate_cut (str : string) (length : Z) (useWordBoundary : bool) :
  str <> "" -> length < Str.length str ->
  truncate str length useWordBoundary =
    (if useWordBoundary
     then substring 0
            (Z.to_nat
               (Str.clamp
                  (Str.length (substring 0 (Z.to_nat (Str.clamp (Str.length str) (length - 2))) str))
                  (Str.lastIndexOf
                     (substring 0 (Z.to_nat (Str.clamp (Str.length str) (length - 2))) str) " ")))
            (substring 0 (Z.to_nat (Str.clamp (Str.length str) (length - 2))) str)
     else substring 0 (Z.to_nat (Str.clamp (Str.length str) (length - 2))) str) +:+ "...".
Proof.
  intros Hne Hlen. unfold truncate. cbn [truthy].
  destruct (String.eqb_spec str "") as [->|_]; [contradiction|].
  destruct (Z.leb_spec (Str.length str) length) as [Hle|_]; [lia|].
  cbn [negb orb]. rewrite !slice_from_start. reflexivity.
Qed.

Lemma cut_point_before_end (str : string) (length : Z) :
  str <> "" -> length < Str.length str ->
  (Z.to_nat (Str.clamp (Str.length str) (length - 2)) < String.length str)%nat.
Proof.
  intros Hne Hlen. unfold Str.clamp, Str.length in *.
  destruct str as [|c s]; [contradiction|]. cbn [String.length] in *.
  destruct (Z.ltb_spec (length - 2) 0); lia.
Qed.

(** Whenever [truncate] cuts (the string is not empty and longer than
    [length]), what it returns is a proper prefix of the string followed by
    three dots, with or without the word boundary and for any [length],
    negative ones included. *)
Theorem truncate_keeps_a_prefix (str : string) (length : Z) (useWordBoundary : bool)
    (Hne : str <> "") (Hlen : length < Str.length str) :
  exists kept rest,
    truncate str length useWordBoundary = kept +:+ "..." /\
    str = kept +:+ rest /\
    rest <> "".
Proof.
  rewrite (truncate_cut str length useWordBoundary Hne Hlen).
  pose proof (cut_point_before_end str length Hne Hlen) as Hcut.
  set (n := Z.to_nat (Str.clamp (Str.length str) (length - 2))) in *.
  destruct (take_split n str) as (rest & Hs & Hl).
  assert (Hrest : rest <> "").
  { intros ->. cbn in Hl. lia. }
  destruct useWordBoundary.
  - set (sub := substring 0 n str) in *.
    set (m := Z.to_nat (Str.clamp (Str.length sub) (Str.lastIndexOf sub " "))).
    destruct (take_split m sub) as (rest' & Hs' & _).
    exists (substring 0 m sub), (rest' +:+ rest). split; [reflexivity|]. split.
    + rewrite <- append_assoc, <- Hs'. exact Hs.
    + intros Habs. apply (f_equal String.length) in Habs.
      rewrite append_length in Habs. cbn in Habs.
      destruct rest; [contradiction|]. cbn in Habs. lia.
  - exists (substring 0 n str), rest. split; [reflexivity|]. split; [exact Hs|exact Hrest].
Qed.

(** [truncate] cutting a sentence to 12. *)
Lemma truncate_keeps_a_prefix_witness :
  exists kept rest,
    truncate "The quick brown fox" 12 true = kept +:+ "..." /\
    "The quick brown fox" = kept +:+ rest /\
    rest <> "".
Proof.
  apply (truncate_keeps_a_prefix "The quick brown fox" 12 true); [discriminate|reflexivity].
Defined.

(** Without the word boundary and for a [length] of at least 2, a string
    longer than [length] is cut to its first [length - 2] characters plus
    three dots: the result has [length + 1] characters, one more than
    [length]. *)
Theorem truncate_plain_is_one_over (str : string) (length : Z)
    (Hmin : 2 <= length) (Hlen : length < Str.length str) :
  truncate str length false = substring 0 (Z.to_nat (length - 2)) str +:+ "..." /\
  Str.length (truncate str length false) = length + 1.
Proof.
  assert (Hne : str <> "") by (intros ->; unfold Str.length in Hlen; cbn in Hlen; lia).
  rewrite (truncate_cut str length false Hne Hlen).
  replace (Str.clamp (Str.length str) (length - 2)) with (length - 2).
  - split; [reflexivity|]. unfold Str.length in *.
    rewrite append_length, take_length. cbn [String.length]. lia.
  - unfold Str.clamp. destruct (Z.ltb_spec (length - 2) 0); lia.
Qed.

Lemma truncate_plain_is_one_over_witness :
  truncate "abcdefgh" 5 false = "abc..." /\
  Str.length (truncate "abcdefgh" 5 false) = 5 + 1.
Proof.
  apply (truncate_plain_is_one_over "abcdefgh" 5); [lia|reflexivity].
Defined.

(** With the word boundary, for a [length] of at least 2 and a string
    longer than it, let the window be the first [length - 2] characters.
    If the window holds no space, its last character is dropped as well
    ([lastIndexOf] answers -1, which [slice] counts from the end); if it
    holds one, the result is what precedes the last space of the window. *)
Theorem truncate_word_boundary (str : string) (length : Z)
    (Hmin : 2 <= length) (Hlen : length < Str.length str) :
  let window := substring 0 (Z.to_nat (length - 2)) str in
  (includes window " " = false ->
   truncate str length true =
     substring 0 (String.length window - 1) window +:+ "...") /\
  (includes window " " = true ->
   exists kept tail,
     window = kept +:+ " " +:+ tail /\
     includes tail " " = false /\
     truncate str length true = kept +:+ "...").
Proof.
  intros window.
  assert (Hne : str <> "") by (intros ->; unfold Str.length in Hlen; cbn in Hlen; lia).
  rewrite (truncate_cut str length true Hne Hlen).
  replace (Str.clamp (Str.length str) (length - 2)) with (length - 2)
    by (unfold Str.clamp; destruct (Z.ltb_spec (length - 2) 0); lia).
  fold window.
  destruct (lastIndexOf_spec window " ") as [[Hidx Hnot]|(pre & post & Hw & Hidx & Hnot)];
    rewrite Hidx.
  - split.
    + intros _. f_equal. f_equal. unfold Str.clamp, Str.length. cbn [Z.ltb Z.compare]. lia.
    + intros Hin. apply includes_char in Hin. contradiction.
  - split.
    + intros Hnone. apply includes_char_false in Hnone. elim Hnone.
      rewrite Hw. apply in_append_char.
    + intros _. exists pre, post. split; [exact Hw|].
      split; [apply includes_char_false; exact Hnot|].
      f_equal. rewrite Hw at 2.
      replace (Z.to_nat (Str.clamp (Str.length window) (Str.length pre)))
        with (String.length pre).
      * apply take_append.
      * unfold Str.clamp, Str.length. rewrite Hw, append_length.
        destruct (Z.ltb_spec (Z.of_nat (String.length pre)) 0); lia.
Qed.

Lemma truncate_word_boundary_witness :
  exists kept tail,
    substring 0 (Z.to_nat (12 - 2)) "The quick brown fox" = kept +:+ " " +:+ tail /\
    includes tail " " = false /\
    truncate "The quick brown fox" 12 true = kept +:+ "...".
Proof.
  apply (proj2 (truncate_word_boundary "The quick brown fox" 12 ltac:(lia) eq_refl)).
  reflexivity.
Defined.

(** With the word boundary and a [length] of at least 3, the result of a
    cut has at most [length] characters. *)
Theorem truncate_word_fits (str : string) (length : Z)
    (Hmin : 3 <= length) (Hlen : length < Str.length str) :
  Str.length (truncate str length true) <= length.
Proof.
  assert (Hwin : String.length (substring 0 (Z.to_nat (length - 2)) str) = Z.to_nat (length - 2)).
  { rewrite take_length. unfold Str.length in Hlen. lia. }
  destruct (truncate_word_boundary str length ltac:(lia) Hlen) as [Hnone Hsome].
  cbv zeta in Hnone, Hsome.
  destruct (includes (substring 0 (Z.to_nat (length - 2)) str) " ") eqn:Hinc.
  - destruct (Hsome eq_refl) as (kept & tail & Hw & _ & ->).
    apply (f_equal String.length) in Hw. rewrite Hwin, !append_length in Hw.
    unfold Str.length. rewrite append_length. cbn [String.length] in *. lia.
  - rewrite (Hnone eq_refl). unfold Str.length.
    rewrite append_length, take_length, Hwin. cbn [String.length]. lia.
Qed.

Lemma truncate_word_fits_witness :
  Str.length (truncate "The quick brown fox" 12 true) <= 12.
Proof.
  apply (truncate_word_fits "The quick brown fox" 12); [lia|reflexivity].
Defined.

(** For a [length] of 0 or 1 the end of the slice is negative and counts
    from the end of the string: without the word boundary a string of two
    or more characters comes back longer than it was, by [length + 1]. *)
Theorem truncate_small_length_grows (str : string) (length : Z)
    (Hsmall : 0 <= length <= 1) (Hlen : 2 <= Str.length str) :
  Str.length (truncate str length false) = Str.length str + length + 1.
Proof.
  assert (Hne : str <> "") by (intros ->; unfold Str.length in Hlen; cbn in Hlen; lia).
  rewrite (truncate_cut str length false Hne ltac:(lia)).
  replace (Str.clamp (Str.length str) (length - 2)) with (Str.length str + length - 2)
    by (unfold Str.clamp; destruct (Z.ltb_spec (length - 2) 0); lia).
  unfold Str.length in *. rewrite append_length, take_length. cbn [String.length]. lia.
Qed.

Lemma truncate_small_length_grows_witness :
  Str.length (truncate "hello" 1 false) = Str.length "hello" + 1 + 1.
Proof.
  apply (truncate_small_length_grows "hello" 1); [lia|vm_compute; discriminate].
Defined.

(** [validateEmail] accepts exactly the strings of more than three
    characters in which an at sign occurs; anything that is not a string is
    turned down. *)
Theorem validateEmail_spec (email : JsValue) :
  validateEmail email = true <->
  exists s, email = JsString s /\ (3 < String.length s)%nat /\
            In "@"%char (list_ascii_of_string s).
Proof.
  unfold validateEmail. split.
  - destruct email as [| |b|n|s|r]; cbn [is_string andb]; try discriminate.
    intros Hv. apply andb_true_iff in Hv. destruct Hv as [Hl Hi].
    exists s. split; [reflexivity|]. split.
    + unfold Str.length in Hl. lia.
    + apply includes_char. exact Hi.
  - intros (s & -> & Hl & Hin). cbn [is_string andb].
    apply andb_true_iff. split.
    + unfold Str.length. lia.
    + apply includes_char. exact Hin.
Qed.

End TextFacts.

(** ** app/utils.ts: the user hooks *)

Section HookFacts.
Import Js Eff UtilsHooks.

Lemma isUser_not_object (user : Value) :
  is_object user = false -> truthy (isUser user) = false.
Proof.
  intros Hobj. unfold isUser. destruct (truthy user) eqn:Ht; [|exact Ht].
  rewrite Hobj. reflexivity.
Qed.

Lemma isUser_truthy (user : Value) :
  truthy (isUser user) = true <->
  exists props s, user = VObject props /\ get user "email" = VString s.
Proof.
  split.
  - destruct user as [| |b|n|s|props];
      try (rewrite isUser_not_object by reflexivity; discriminate);
      try discriminate.
    unfold isUser. cbn [is_object andb truthy]. intros Hs.
    destruct (get (VObject props) "email") as [| |b|n|s|ps] eqn:Hget; try discriminate.
    exists props, s. split; reflexivity.
  - intros (props & s & -> & Hget). unfold isUser. cbn [truthy is_object andb].
    rewrite Hget. reflexivity.
Qed.

(** [useUser] and [useOptionalUser] agree: either the optional user is
    [undefined] and [useUser] throws its error, or it is the [user] of the
    root route's data, an object whose [email] is a string, and [useUser]
    returns that same object. *)
Theorem useUser_agrees_with_useOptionalUser (matchingRoutes : list RouteMatch) :
  (useOptionalUser matchingRoutes = VUndefined /\
   useUser matchingRoutes =
     Threw (Model.ThrownError (mkError
       "No user found in root loader, but user is required by useUser. If user is optional, try useOptionalUser instead."))) \/
  (exists props s,
     useOptionalUser matchingRoutes = VObject props /\
     get (useMatchesData matchingRoutes "root") "user" = VObject props /\
     get (VObject props) "email" = VString s /\
     useUser matchingRoutes = Returned (VObject props)).
Proof.
  unfold useUser, useOptionalUser.
  set (data := useMatchesData matchingRoutes "root").
  destruct (truthy data); cbn [negb orb]; [|left; split; reflexivity].
  destruct (truthy (isUser (get data "user"))) eqn:Hu; cbn [negb].
  - right. apply isUser_truthy in Hu. destruct Hu as (props & s & Hobj & Hemail).
    exists props, s. rewrite Hobj in *. repeat split; try reflexivity. exact Hemail.
  - left. split; reflexivity.
Qed.

Lemma find_first {A} (p : A -> bool) (pre post : list A) (x : A) :
  (forall y, In y pre -> p y = false) -> p x = true ->
  List.find p (pre ++ x :: post) = Some x.
Proof.
  intros Hpre Hx. induction pre as [|y pre IH]; cbn.
  - rewrite Hx. reflexivity.
  - rewrite (Hpre y (or_introl eq_refl)). apply IH. intros z Hz. apply Hpre. right. exact Hz.
Qed.

Lemma find_nothing {A} (p : A -> bool) (l : list A) :
  (forall y, In y l -> p y = false) -> List.find p l = None.
Proof.
  intros Hall. induction l as [|y l IH]; cbn; [reflexivity|].
  rewrite (Hall y (or_introl eq_refl)). apply IH. intros z Hz. apply Hall. right. exact Hz.
Qed.

(** Only the first route whose id is "root" counts: the routes before it
    with another id and every route after it are ignored by both hooks. *)
Theorem user_hooks_read_first_root_route (pre post : list RouteMatch) (root : RouteMatch)
    (Hroot : id root = "root")
    (Hpre : forall r, In r pre -> id r <> "root") :
  useMatchesData (pre ++ root :: post) "root" = data root /\
  useOptionalUser (pre ++ root :: post) = useOptionalUser [root] /\
  useUser (pre ++ root :: post) = useUser [root].
Proof.
  assert (Hfind : useMatchesData (pre ++ root :: post) "root" = data root).
  { unfold useMatchesData. rewrite (find_first _ pre post root); [reflexivity| |].
    - intros r Hr. apply String.eqb_neq. apply Hpre, Hr.
    - rewrite Hroot. reflexivity. }
  assert (Hone : useMatchesData [root] "root" = data root).
  { unfold useMatchesData. cbn. rewrite Hroot. reflexivity. }
  assert (Hopt : useOptionalUser (pre ++ root :: post) = useOptionalUser [root]).
  { unfold useOptionalUser. rewrite Hfind, Hone. reflexivity. }
  split; [exact Hfind|]. split; [exact Hopt|].
  unfold useUser. rewrite Hopt. reflexivity.
Qed.

Lemma user_hooks_read_first_root_route_witness :
  useOptionalUser
    ([mkRouteMatch "routes/notes" VNull]
     ++ mkRouteMatch "root" (VObject [("user", VObject [("email", VString "a@b.io")])])
     :: [mkRouteMatch "root" VNull]) =
  useOptionalUser
    [mkRouteMatch "root" (VObject [("user", VObject [("email", VString "a@b.io")])])].
Proof.
  apply (user_hooks_read_first_root_route
           [mkRouteMatch "routes/notes" VNull] [mkRouteMatch "root" VNull]
           (mkRouteMatch "root" (VObject [("user", VObject [("email", VString "a@b.io")])]))).
  - reflexivity.
  - intros r [<-|[]]. discriminate.
Defined.

(** Without a route whose id is "root" there is no user: [useOptionalUser]
    yields [undefined] and [useUser] throws. *)
Theorem no_root_route_no_user (matchingRoutes : list RouteMatch)
    (Hnone : forall r, In r matchingRoutes -> id r <> "root") :
  useOptionalUser matchingRoutes = VUndefined /\
  exists error, useUser matchingRoutes = Threw (Model.ThrownError error).
Proof.
  assert (Hdata : useMatchesData matchingRoutes "root" = VUndefined).
  { unfold useMatchesData.
    rewrite find_nothing; [reflexivity|].
    intros r Hr. apply String.eqb_neq, Hnone, Hr. }
  assert (Hopt : useOptionalUser matchingRoutes = VUndefined).
  { unfold useOptionalUser. rewrite Hdata. reflexivity. }
  split; [exact Hopt|]. unfold useUser. rewrite Hopt. eexists. reflexivity.
Qed.

Lemma no_root_route_no_user_witness :
  useOptionalUser [mkRouteMatch "routes/notes" VNull] = VUndefined /\
  exists error, useUser [mkRouteMatch "routes/notes" VNull] = Threw (Model.ThrownError error).
Proof.
  apply (no_root_route_no_user [mkRouteMatch "routes/notes" VNull]).
  intros r [<-|[]]. discriminate.
Defined.

End HookFacts.

(** ** app/utils.ts: more on [safeRedirect] *)

Section RedirectFacts.
Import Js Utils Props.

(** [safeRedirect] is idempotent: what it answers is something it would
    answer again, under the same default. *)
Theorem safeRedirect_idempotent (to : JsValue) (d : option string) :
  safeRedirect (JsString (safeRedirect to d)) d = safeRedirect to d.
Proof.
  assert (Hdefault : safeRedirect (JsString (default_arg d)) d = default_arg d).
  { rewrite safeRedirect_string. destruct (_ && _); reflexivity. }
  destruct (is_string to) eqn:Hstr;
    [|rewrite (safeRedirect_not_string to d Hstr); exact Hdefault].
  destruct to as [| |b|n|s|r]; try discriminate.
  rewrite (safeRedirect_string s).
  destruct (startsWith s "/" && negb (startsWith s "//")) eqn:Hs; [|exact Hdefault].
  rewrite safeRedirect_string, Hs. reflexivity.
Qed.

Lemma single_slash_first_two (s : string) :
  single_slash s = single_slash (substring 0 2 s).
Proof.
  unfold single_slash, startsWith.
  destruct s as [|a [|b r]]; [reflexivity|reflexivity|].
  cbn [substring String.prefix].
  destruct (ascii_dec "/" a); [|reflexivity].
  destruct (ascii_dec "/" b); destruct r; reflexivity.
Qed.

(** Whether [safeRedirect] keeps a string is decided by its first two
    characters alone: two strings that agree on them are both kept or both
    replaced by the default, whatever follows. *)
Theorem safeRedirect_reads_two_characters (s1 s2 : string) (d : option string)
    (Hsame : substring 0 2 s1 = substring 0 2 s2) :
  (safeRedirect (JsString s1) d = s1 /\ safeRedirect (JsString s2) d = s2) \/
  (safeRedirect (JsString s1) d = default_arg d /\
   safeRedirect (JsString s2) d = default_arg d).
Proof.
  rewrite !safeRedirect_string. fold (single_slash s1) (single_slash s2).
  rewrite (single_slash_first_two s1), (single_slash_first_two s2), Hsame.
  destruct (single_slash (substring 0 2 s2)); [left|right]; split; reflexivity.
Qed.

Lemma safeRedirect_reads_two_characters_witness :
  (safeRedirect (JsString "/notes") None = "/notes" /\
   safeRedirect (JsString "/n@evil.example") None = "/n@evil.example") \/
  (safeRedirect (JsString "/notes") None = default_arg None /\
   safeRedirect (JsString "/n@evil.example") None = default_arg None).
Proof.
  apply (safeRedirect_reads_two_characters "/notes" "/n@evil.example" None).
  reflexivity.
Defined.

End RedirectFacts.

(** ** app/routes/_app+/notes.new.tsx: the action and the page *)

Section ActionFacts.
Import Js Model Eff Server Zod Props NotesNewPage.
Context `{Collaborators}.

(** The action keeps the store in order: whatever the request, the process
    environment and the console are untouched, the notes there were stay
    in place, and at most one note is added, which then belongs to the user
    of the session. *)
Theorem action_adds_at_most_one_note (request : Request) (w : World) :
  process_env (snd (NotesNew.action request w)) = process_env w /\
  console (snd (NotesNew.action request w)) = console w /\
  (notes (snd (NotesNew.action request w)) = notes w \/
   exists note,
     notes (snd (NotesNew.action request w)) = notes w ++ [note] /\
     session_cookie request !! USER_SESSION_KEY = Some (userId note)).
Proof.
  destruct (session_cookie request !! USER_SESSION_KEY) as [uid|] eqn:Hu.
  - rewrite (action_signed_in request w uid Hu).
    destruct (safeParse (form request)) as [data|error]; cbn.
    + repeat split. right. eexists. split; reflexivity.
    + repeat split. left. reflexivity.
  - rewrite (action_anonymous request w Hu). cbn. repeat split. left. reflexivity.
Qed.

(** After a note is created the visitor stays signed in: the session that
    goes into the Set-Cookie header of the redirect still holds the user
    id, and differs from the session of the request in the flash entry
    only. *)
Theorem action_keeps_session (request : Request) (w : World)
    (userId : string) (data : NoteFields)
    (Huser : session_cookie request !! USER_SESSION_KEY = Some userId)
    (Hvalid : safeParse (form request) = ParseSuccess data) :
  exists response session,
    fst (NotesNew.action request w) = Returned response /\
    Http.headers_get "Set-Cookie" (headers response) = Some (commitSession session) /\
    session !! USER_SESSION_KEY = Some userId /\
    forall key, key <> "__flash_success__" ->
      session !! key = session_cookie request !! key.
Proof.
  rewrite (action_signed_in request w userId Huser), Hvalid. cbv zeta. cbn [fst].
  eexists. eexists. split; [reflexivity|]. split; [reflexivity|]. split.
  - unfold flash. rewrite lookup_insert_ne by discriminate. exact Huser.
  - intros key Hkey. unfold flash. rewrite lookup_insert_ne; [reflexivity|].
    intros Heq. apply Hkey. rewrite <- Heq. reflexivity.
Qed.

Lemma format_step_lookup (l : ZodError) (acc : FieldErrors) (f : string) :
  fold_left
    (fun acc i => <[path i := default [] (acc !! path i) ++ [issue_message i]]> acc) l acc
    !! f =
  match map issue_message (List.filter (fun i => String.eqb (path i) f) l) with
  | [] => acc !! f
  | ms => Some (default [] (acc !! f) ++ ms)
  end.
Proof.
  revert acc. induction l as [|i l IH]; intros acc; [reflexivity|].
  cbn [fold_left List.filter]. rewrite IH.
  destruct (String.eqb_spec (path i) f) as [Heq|Hne].
  - rewrite Heq, lookup_insert_eq. simpl.
    destruct (map issue_message (List.filter (fun i0 => String.eqb (path i0) f) l)).
    + reflexivity.
    + simpl. rewrite <- app_assoc. reflexivity.
  - rewrite lookup_insert_ne by exact Hne. reflexivity.
Qed.

(** The formatted errors have an entry for a field exactly when an issue
    is about that field. *)
Lemma format_has_field (error : ZodError) (f : string) :
  match format error !! f with Some _ => true | None => false end =
  existsb (fun i => String.eqb (path i) f) error.
Proof.
  unfold format. rewrite format_step_lookup, lookup_empty.
  induction error as [|i l IH]; [reflexivity|].
  cbn [List.filter existsb]. destruct (String.eqb (path i) f); [reflexivity|exact IH].
Qed.

(** The focus effect of the page: focus goes to [title] whenever the
    server reported an error for it, to [body] only when it reported one
    for [body] and none for [title], and nowhere when it reported neither
    (or nothing at all). *)
Theorem focus_effect_priority (serverErrors : option FieldErrors) :
  (focus_effect serverErrors = Some "title" <->
   exists errors, serverErrors = Some errors /\ is_Some (errors !! "title")) /\
  (focus_effect serverErrors = Some "body" <->
   exists errors, serverErrors = Some errors /\
     errors !! "title" = None /\ is_Some (errors !! "body")) /\
  (focus_effect serverErrors = None <->
   serverErrors = None \/
   exists errors, serverErrors = Some errors /\
     errors !! "title" = None /\ errors !! "body" = None).
Proof.
  destruct serverErrors as [errors|]; cbn [focus_effect fields List.find].
  - destruct (errors !! "title") as [mt|] eqn:Ht; [|destruct (errors !! "body") as [mb|] eqn:Hb].
    + split; [|split]; split; try discriminate.
      * intros _. exists errors. rewrite Ht. split; [reflexivity|eexists; reflexivity].
      * intros _. reflexivity.
      * intros (e & [= <-] & Hn & _). congruence.
      * intros [?|(e & [= <-] & Hn & _)]; congruence.
    + split; [|split]; split; try discriminate.
      * intros (e & [= <-] & [x Hx]). congruence.
      * intros _. exists errors. split; [reflexivity|]. split; [exact Ht|].
        rewrite Hb. eexists; reflexivity.
      * intros _. reflexivity.
      * intros [?|(e & [= <-] & _ & Hn)]; congruence.
    + split; [|split]; split; try discriminate.
      * intros (e & [= <-] & [x Hx]). congruence.
      * intros (e & [= <-] & _ & [x Hx]). congruence.
      * intros _. right. exists errors. repeat split; assumption.
      * intros _. reflexivity.
  - split; [|split]; split; try discriminate.
    + intros (e & He & _). discriminate.
    + intros (e & He & _). discriminate.
    + intros _. left. reflexivity.
    + intros _. reflexivity.
Qed.

(** The action and the page together: when a signed-in visitor's form is
    turned down, the field that receives focus is the first of [title],
    [body] that one of the schema's issues is about. *)
Theorem focus_follows_the_issues (request : Request) (w : World)
    (userId : string) (error : ZodError)
    (Huser : session_cookie request !! USER_SESSION_KEY = Some userId)
    (Hinvalid : safeParse (form request) = ParseFailure error) :
  exists response,
    fst (NotesNew.action request w) = Returned response /\
    focus_effect (server_errors (Some response)) =
      List.find (fun name => existsb (fun i => String.eqb (path i) name) error) fields.
Proof.
  rewrite (action_signed_in request w userId Huser), Hinvalid. cbn [fst].
  eexists. split; [reflexivity|].
  cbn [server_errors body_of Http.json focus_effect fields List.find].
  rewrite <- !format_has_field. reflexivity.
Qed.

End ActionFacts.

Section ActionWitnesses.
Import Js Model Eff Server Zod Props NotesNewPage Setting.

Lemma action_keeps_session_witness :
  exists response session,
    fst (NotesNew.action (user_post [("title", "T"); ("body", "B")]) world0) =
      Returned response /\
    Http.headers_get "Set-Cookie" (headers response) = Some (commitSession session) /\
    session !! USER_SESSION_KEY = Some "u1" /\
    forall key, key <> "__flash_success__" ->
      session !! key = session_cookie (user_post [("title", "T"); ("body", "B")]) !! key.
Proof.
  refine (action_keeps_session (user_post [("title", "T"); ("body", "B")]) world0
            "u1" (mkNoteFields "T" "B") _ _);
    vm_compute; reflexivity.
Defined.

Lemma focus_follows_the_issues_witness :
  exists response,
    fst (NotesNew.action (user_post [("title", "T")]) world0) = Returned response /\
    focus_effect (server_errors (Some response)) =
      List.find
        (fun name => existsb (fun i => String.eqb (path i) name) [mkIssue "body" "Required"])
        fields.
Proof.
  refine (focus_follows_the_issues (user_post [("title", "T")]) world0 "u1"
            [mkIssue "body" "Required"] _ _);
    vm_compute; reflexivity.
Defined.

End ActionWitnesses.

(** ** app/root.tsx: more on the boundaries and the documents *)

Section RootFacts.
Import Js Model Eff Jsx Server Root Props.
Context `{Collaborators}.

Lemma nodes_ErrorDocument_title (children : list Element) (title : option string) :
  exists pre,
    nodes (ErrorDocument children title) =
      pre ++ flat_map nodes children ++ [Comp "Scripts" [] []; Comp "LiveReload" [] []] /\
    List.filter (is_el "title") pre = title_el title.
Proof.
  unfold ErrorDocument.
  match goal with |- context [El "html" _ [?h; _]] => set (head := h) end.
  rewrite nodes_El. cbn [flat_map]. rewrite nodes_El, flat_map_app, app_nil_r.
  eexists (_ :: nodes head ++ [_]). split.
  - cbn [app]. rewrite <- app_assoc. cbn [app]. reflexivity.
  - subst head. destruct title as [[|c t]|]; reflexivity.
Qed.

Lemma nodes_Document_title (t : ThemeContext) (data : LoaderData)
    (children : list Element) (title : option string) :
  exists pre,
    nodes (Document t data children title) =
      pre ++ flat_map nodes children
          ++ [Comp "ScrollRestoration" [] []; env_script data;
              Comp "Scripts" [] []; Comp "LiveReload" [] []] /\
    List.filter (is_el "title") pre = title_el title.
Proof.
  unfold Document.
  match goal with |- context [El "html" _ [?h; _]] => set (head := h) end.
  rewrite nodes_El. cbn [flat_map]. rewrite nodes_El, flat_map_app, app_nil_r.
  eexists (_ :: nodes head ++ [_]). split.
  - cbn [app]. rewrite <- app_assoc. cbn [app]. reflexivity.
  - subst head. destruct title as [[|c s]|]; reflexivity.
Qed.

Lemma title_from_shell (pre post : list Element) (children : list Element)
    (doc : Element) (title : option string) :
  nodes doc = pre ++ flat_map nodes children ++ post ->
  List.filter (is_el "title") pre = title_el title ->
  List.filter (is_el "title") post = [] ->
  (forall s, title = Some s -> s <> "" -> In (El "title" [] [Txt s]) (nodes doc)) /\
  (title = None \/ title = Some "" -> omits (is_el "title") children doc).
Proof.
  intros Hnodes Hpre Hpost. split.
  - intros s -> Hs. rewrite Hnodes. apply in_app_iff. left.
    apply (proj1 (filter_In (is_el "title") _ pre)). rewrite Hpre.
    unfold title_el, child_if. cbn [truthy].
    destruct (String.eqb_spec s ""); [contradiction|]. left. reflexivity.
  - intros Hnone n Hin Hn. rewrite Hnodes in Hin.
    apply in_app_iff in Hin. destruct Hin as [Hin|Hin].
    + assert (Hf : In n (List.filter (is_el "title") pre))
        by (apply filter_In; split; assumption).
      rewrite Hpre in Hf. destruct Hnone as [-> | ->]; destruct Hf.
    + apply in_app_iff in Hin. destruct Hin as [Hin|Hin]; [exact Hin|].
      assert (Hf : In n (List.filter (is_el "title") post))
        by (apply filter_In; split; assumption).
      rewrite Hpost in Hf. destruct Hf.
Qed.

(** Both documents render a [title] element exactly for a title that is
    given and not empty: with one, the element with that text is in the
    document; with none, or with the empty string, the shell emits no
    [title] element at all. *)
Theorem documents_render_title_when_given (t : ThemeContext) (data : LoaderData)
    (children : list Element) (title : option string) :
  (forall s, title = Some s -> s <> "" ->
     In (El "title" [] [Txt s]) (nodes (Document t data children title)) /\
     In (El "title" [] [Txt s]) (nodes (ErrorDocument children title))) /\
  (title = None \/ title = Some "" ->
     omits (is_el "title") children (Document t data children title) /\
     omits (is_el "title") children (ErrorDocument children title)).
Proof.
  destruct (nodes_Document_title t data children title) as (pre & Hn & Hp).
  destruct (nodes_ErrorDocument_title children title) as (pre' & Hn' & Hp').
  destruct (title_from_shell pre _ children _ title Hn Hp eq_refl) as [Hd1 Hd2].
  destruct (title_from_shell pre' _ children _ title Hn' Hp' eq_refl) as [He1 He2].
  split.
  - intros s Hs Hne. split; [apply (Hd1 s Hs Hne)|apply (He1 s Hs Hne)].
  - intros Hnone. split; [apply Hd2, Hnone|apply He2, Hnone].
Qed.

(** Every document request is answered by a rendered document, for an
    anonymous visitor as for a signed-in one: nothing is thrown and the
    world is left as it was.  The class of the root element is the theme
    of the theme cookie, or empty without one, and the theme guard is told
    whether the server knew a theme. *)
Theorem render_follows_theme_cookie (request : Request) (w : World) :
  exists doc,
    Root.render request w =
      (Returned (Comp "ThemeProvider"
                   [("specifiedTheme", theme_prop (theme_cookie request))] [doc]), w) /\
    is_el "html" doc = true /\
    prop "className" doc =
      Some (match theme_cookie request with Some t => theme_value t | None => "" end) /\
    In (Comp "NonFlashOfWrongThemeEls"
          [("ssrTheme", match theme_cookie request with Some _ => "true" | None => "false" end)]
          [])
       (nodes doc).
Proof.
  destruct (render_returns request w) as (data & Hload & Hrender).
  pose proof (loader_returns request w) as Hl. rewrite Hl in Hload. cbn [fst] in Hload.
  injection Hload as Hdata. subst data. cbn [theme user ENV] in Hrender.
  unfold App in Hrender. cbn [theme] in Hrender.
  eexists. split; [exact Hrender|]. split; [reflexivity|]. split.
  - destruct (theme_cookie request); reflexivity.
  - match goal with |- context [nodes (Document ?t ?d ?c ?ti)] =>
      destruct (nodes_Document t d c ti) as (pre & Hnodes & _ & H16) end.
    rewrite Hnodes. apply in_app_iff. left.
    apply list_elem_of_In, list_elem_of_lookup. exists 16%nat.
    rewrite H16. cbn [theme]. destruct (theme_cookie request); reflexivity.
Qed.

(** With neither RECAPTCHA variable set in the process environment, both
    keys drop out of the serialized map: the inline script of the rendered
    document sets [window.ENV] to the empty object. *)
Theorem window_ENV_empty_when_unset (request : Request) (w : World)
    (Henabled : process_env w !! "RECAPTCHA_ENABLED" = None)
    (Hsitekey : process_env w !! "RECAPTCHA_SITE_KEY" = None) :
  exists doc specified,
    fst (Root.render request w) = Returned (Comp "ThemeProvider" specified [doc]) /\
    List.filter (is_el "script") (nodes doc) =
      [El "script" [("dangerouslySetInnerHTML", "window.ENV = {}")] []].
Proof.
  destruct (render_returns request w) as (data & Hload & Hrender).
  pose proof (loader_returns request w) as Hl. rewrite Hl in Hload. cbn [fst] in Hload.
  injection Hload as Hdata. subst data. cbn [theme user ENV] in Hrender.
  rewrite Henabled, Hsitekey in Hrender. rewrite Hrender. cbn [fst].
  do 2 eexists. split; [reflexivity|]. reflexivity.
Qed.

End RootFacts.

Section RootWitnesses.
Import Js Model Eff Jsx Server Root Props Setting.

Lemma window_ENV_empty_when_unset_witness :
  exists doc specified,
    fst (Root.render (anonymous_post []) (mkWorld (<["SESSION_SECRET" := "s3cret"]> ∅) [] [])) =
      Returned (Comp "ThemeProvider" specified [doc]) /\
    List.filter (is_el "script") (nodes doc) =
      [El "script" [("dangerouslySetInnerHTML", "window.ENV = {}")] []].
Proof.
  refine (window_ENV_empty_when_unset (anonymous_post [])
            (mkWorld (<["SESSION_SECRET" := "s3cret"]> ∅) [] []) _ _);
    vm_compute; reflexivity.
Defined.

Lemma documents_render_title_when_given_witness :
  In (El "title" [] [Txt "Error!"])
     (nodes (Document (mkThemeContext None) (mkLoaderData None None []) [] (Some "Error!"))) /\
  In (El "title" [] [Txt "Error!"]) (nodes (ErrorDocument [] (Some "Error!"))).
Proof.
  apply (proj1 (documents_render_title_when_given (mkThemeContext None)
                  (mkLoaderData None None []) [] (Some "Error!")) "Error!" eq_refl).
  discriminate.
Defined.

End RootWitnesses.
